(** * The main instance of src/node_main_instance.cc

    A shallow embedding of [node::NodeMainInstance]: its two constructors,
    [Dispose], the destructor, both overloads of [Run] and
    [CreateMainEnvironment].  The engine, the platform, the event loop and
    the environment factory are collaborators of that file; here they are
    transition functions on an abstract state [W] of the rest of the process,
    and every call made to them is written to a log in program order. *)

From Stdlib Require Import List String Bool Arith NArith Lia.
Import ListNotations.

Set Implicit Arguments.

(** ** Objects owned by the collaborators

    Only their identity matters to this file, so each is an address. *)

Variant Isolate := IsolateAt (addr : nat).
Variant uv_loop_t := LoopAt (addr : nat).
Variant MultiIsolatePlatform := PlatformAt (addr : nat).
Variant ArrayBufferAllocator := AllocatorAt (addr : nat).
Variant SnapshotData := SnapshotAt (addr : nat).
Variant EmbedderSnapshotData := EmbedderSnapshotAt (addr : nat).
Variant Context := ContextAt (addr : nat).

(** [Environment*]: the file only asks an environment for its [context()]. *)
Record Environment := {
  env_addr : nat;
  context : Context
}.

(** Modelled from the spec: the enumeration [ExitCode] is declared outside
    src/; the spec gives it as no-failure, generic-user-error and other
    defined codes.  The file names the first two only. *)
Inductive ExitCode :=
| kNoFailure
| kGenericUserError
| kOtherCode (n : nat).

Definition is_kNoFailure (c : ExitCode) : bool :=
  match c with kNoFailure => true | _ => false end.

(** [Local<Context>::IsEmpty]: an empty handle is a null one. *)
Definition IsEmpty (l : option Context) : bool :=
  match l with Some _ => false | None => true end.

(** [Maybe<ExitCode>::FromMaybe]. *)
Definition FromMaybe (m : option ExitCode) (default : ExitCode) : ExitCode :=
  match m with Some c => c | None => default end.

(** [v8::ResourceConstraints] and [v8::Isolate::CreateParams], reduced to the
    members this file reads or writes. *)
Record ResourceConstraints := {
  max_young_generation_size_in_bytes : N
}.

Record CreateParams := {
  array_buffer_allocator : option ArrayBufferAllocator;
  constraints : ResourceConstraints
}.

(** [std::make_unique<Isolate::CreateParams>()]. *)
Definition default_CreateParams : CreateParams :=
  {| array_buffer_allocator := None;
     constraints := {| max_young_generation_size_in_bytes := 0%N |} |}.

Definition set_array_buffer_allocator
    (p : CreateParams) (a : option ArrayBufferAllocator) : CreateParams :=
  {| array_buffer_allocator := a; constraints := constraints p |}.

(** [PerIsolateOptions] and [IsolateData], likewise reduced. *)
Record PerIsolateOptions := {
  track_heap_objects : bool
}.

Record IsolateData := {
  data_addr : nat;
  options : PerIsolateOptions;
  max_young_gen_size : N
}.

Definition set_max_young_gen_size (d : IsolateData) (n : N) : IsolateData :=
  {| data_addr := data_addr d; options := options d; max_young_gen_size := n |}.

(** Build-time switches tested by the preprocessor. *)
Record BuildConfig := {
  HAVE_OPENSSL : bool;
  LEAK_SANITIZER : bool
}.

(** ** The log *)

(** The scoped guards ([Locker], [Isolate::Scope], [HandleScope],
    [Context::Scope]): entered where they are declared, left at the end of
    the enclosing block. *)
Variant Guard :=
| LockerOn (isolate : option Isolate)
| IsolateScopeOn (isolate : option Isolate)
| HandleScopeOn (isolate : option Isolate)
| ContextScopeOn (ctx : Context).

(** The owning members of the class, released when the object dies. *)
Variant Member :=
| member_isolate_params (p : CreateParams)
| member_isolate_data (d : IsolateData)
| member_array_buffer_allocator (a : ArrayBufferAllocator).

Inductive Event :=
| EvArrayBufferAllocatorCreate (result : ArrayBufferAllocator)
| EvNewIsolate (params : CreateParams) (event_loop : uv_loop_t)
    (platform : MultiIsolatePlatform) (snapshot_data : option SnapshotData)
    (result : option Isolate)
| EvAsEmbedderWrapper (snapshot_data : option SnapshotData)
    (result : EmbedderSnapshotData)
| EvCreateIsolateData (isolate : Isolate) (event_loop : uv_loop_t)
    (platform : MultiIsolatePlatform) (allocator : option ArrayBufferAllocator)
    (embedder_snapshot_data : EmbedderSnapshotData) (result : IsolateData)
| EvNewIsolateData (isolate : option Isolate) (event_loop : uv_loop_t)
    (platform : MultiIsolatePlatform) (result : IsolateData)
| EvSetIsolateMiscHandlers (isolate : option Isolate)
| EvDrainTasks (platform : MultiIsolatePlatform) (isolate : option Isolate)
| EvUnregisterIsolate (platform : MultiIsolatePlatform)
    (isolate : option Isolate)
| EvIsolateDispose (isolate : Isolate)
| EvEnter (g : Guard)
| EvLeave (g : Guard)
| EvStartTrackingHeapObjects (isolate : Isolate)
| EvNewContext (isolate : option Isolate) (result : option Context)
| EvCreateEnvironment (isolate_data : IsolateData) (ctx : option Context)
    (args exec_args : list string) (result : option Environment)
| EvInitCryptoOnce (isolate : option Isolate)
| EvLoadEnvironment (env : Environment)
| EvSpinEventLoopInternal (env : Environment) (result : option ExitCode)
| EvLsanDoLeakCheck
| EvFreeEnvironment (env : Environment)
| EvRelease (m : Member)
| EvStoreExitCode (c : ExitCode).

(** ** The collaborators

    A call that returns something is a transition of [W] with a result; a
    call that returns nothing moves [W] by [effect].  Every call is taken
    to return: what a collaborator does when handed a null pointer is its
    own affair, and the pointer it was handed is in the log. *)
Record Collaborators (W : Type) := {
  ArrayBufferAllocator_Create : W -> ArrayBufferAllocator * W;
  NewIsolate : CreateParams -> uv_loop_t -> MultiIsolatePlatform ->
               option SnapshotData -> W -> option Isolate * CreateParams * W;
  AsEmbedderWrapper : option SnapshotData -> W -> EmbedderSnapshotData * W;
  CreateIsolateData : Isolate -> uv_loop_t -> MultiIsolatePlatform ->
                      option ArrayBufferAllocator -> EmbedderSnapshotData ->
                      W -> IsolateData * W;
  NewIsolateData : option Isolate -> uv_loop_t -> MultiIsolatePlatform ->
                   W -> IsolateData * W;
  NewContext : option Isolate -> W -> option Context * W;
  CreateEnvironment : IsolateData -> option Context -> list string ->
                      list string -> W -> option Environment * W;
  SpinEventLoopInternal : Environment -> W -> option ExitCode * W;
  effect : Event -> W -> W
}.

(** ** Computations: state of the collaborators, log, fatal abort *)

Inductive Outcome (W A : Type) :=
| Returned (a : A) (log : list Event) (w : W)
| Aborted (log : list Event) (w : W).

Arguments Aborted {W A} log w.

Definition M (W A : Type) := W -> Outcome W A.

Definition ret {W A} (a : A) : M W A := fun w => Returned a [] w.

Definition bind {W A B} (m : M W A) (f : A -> M W B) : M W B :=
  fun w =>
    match m w with
    | Returned a l1 w1 =>
        match f a w1 with
        | Returned b l2 w2 => Returned b (l1 ++ l2) w2
        | Aborted l2 w2 => Aborted (l1 ++ l2) w2
        end
    | Aborted l1 w1 => Aborted l1 w1
    end.

Declare Scope node_scope.
Delimit Scope node_scope with node.
Notation "x <- c1 ;; c2" := (bind c1 (fun x => c2))
  (at level 100, c1 at next level, right associativity) : node_scope.
Notation "' pat <- c1 ;; c2" := (bind c1 (fun x => match x with pat => c2 end))
  (at level 100, pat pattern, c1 at next level, right associativity) : node_scope.
Notation "c1 ;; c2" := (bind c1 (fun _ => c2))
  (at level 100, right associativity) : node_scope.
Open Scope node_scope.

(** The process dies: nothing after this point runs. *)
Definition abort {W A} : M W A := fun w => Aborted [] w.

(** [CHECK(cond)]. *)
Definition CHECK {W} (cond : bool) : M W unit :=
  if cond then ret tt else abort.

(** [CHECK_NOT_NULL(p)]; the pointer, now known to be set, is handed on. *)
Definition CHECK_NOT_NULL {W A} (p : option A) : M W A :=
  match p with Some x => ret x | None => abort end.

(** [CHECK_NULL(p)]. *)
Definition CHECK_NULL {W A} (p : option A) : M W unit :=
  match p with None => ret tt | Some _ => abort end.

(** [p->...] on a pointer the file does not test: a null pointer here ends
    the process. *)
Definition deref {W A} (p : option A) : M W A :=
  match p with Some x => ret x | None => abort end.

(** A write to a local of this file: logged, invisible to the collaborators. *)
Definition note {W} (e : Event) : M W unit := fun w => Returned tt [e] w.

Definition log_of {W A} (o : Outcome W A) : list Event :=
  match o with Returned _ l _ => l | Aborted l _ => l end.

Definition aborted {W A} (o : Outcome W A) : bool :=
  match o with Returned _ _ _ => false | Aborted _ _ => true end.

Definition value_of {W A} (o : Outcome W A) : option A :=
  match o with Returned a _ _ => Some a | Aborted _ _ => None end.

(** ** The class *)

Record NodeMainInstance := {
  args_ : list string;
  exec_args_ : list string;
  array_buffer_allocator_ : option ArrayBufferAllocator;
  isolate_ : option Isolate;
  platform_ : MultiIsolatePlatform;
  isolate_data_ : option IsolateData;
  isolate_params_ : option CreateParams;
  snapshot_data_ : option SnapshotData
}.

Definition set_isolate_ (this : NodeMainInstance) (v : option Isolate) :=
  {| args_ := args_ this; exec_args_ := exec_args_ this;
     array_buffer_allocator_ := array_buffer_allocator_ this;
     isolate_ := v; platform_ := platform_ this;
     isolate_data_ := isolate_data_ this;
     isolate_params_ := isolate_params_ this;
     snapshot_data_ := snapshot_data_ this |}.

Definition set_isolate_data_ (this : NodeMainInstance) (v : option IsolateData) :=
  {| args_ := args_ this; exec_args_ := exec_args_ this;
     array_buffer_allocator_ := array_buffer_allocator_ this;
     isolate_ := isolate_ this; platform_ := platform_ this;
     isolate_data_ := v;
     isolate_params_ := isolate_params_ this;
     snapshot_data_ := snapshot_data_ this |}.

Definition set_isolate_params_ (this : NodeMainInstance) (v : option CreateParams) :=
  {| args_ := args_ this; exec_args_ := exec_args_ this;
     array_buffer_allocator_ := array_buffer_allocator_ this;
     isolate_ := isolate_ this; platform_ := platform_ this;
     isolate_data_ := isolate_data_ this;
     isolate_params_ := v;
     snapshot_data_ := snapshot_data_ this |}.

Section Instance.

Context {W : Type}.
Variable node : Collaborators W.
Variable build : BuildConfig.

(** A call that returns nothing. *)
Definition call_ (e : Event) : M W unit :=
  fun w => Returned tt [e] (effect node e w).

(** A call that returns [r]; [ev r] is its entry in the log. *)
Definition call {A} (f : W -> A * W) (ev : A -> Event) : M W A :=
  fun w => let (r, w') := f w in Returned r [ev r] w'.

(** A block whose first declaration is the guard [g]. *)
Definition scoped {A} (g : Guard) (body : M W A) : M W A :=
  call_ (EvEnter g) ;;
  r <- body ;;
  call_ (EvLeave g) ;;
  ret r.

(** *** Constructor over an isolate owned by the caller (lines 32-48) *)
Definition NodeMainInstance_from_isolate
    (isolate : option Isolate) (event_loop : uv_loop_t)
    (platform : MultiIsolatePlatform)
    (args exec_args : list string) : M W NodeMainInstance :=
  let this :=
    {| args_ := args;
       exec_args_ := exec_args;
       array_buffer_allocator_ := None;
       isolate_ := isolate;
       platform_ := platform;
       isolate_data_ := None;
       isolate_params_ := None;
       snapshot_data_ := None |} in
  d <- call (NewIsolateData node (isolate_ this) event_loop platform)
            (EvNewIsolateData (isolate_ this) event_loop platform) ;;
  let this := set_isolate_data_ this (Some d) in
  call_ (EvSetIsolateMiscHandlers (isolate_ this)) ;;
  ret this.

(** [NodeMainInstance::Create] (lines 50-58). *)
Definition Create
    (isolate : option Isolate) (event_loop : uv_loop_t)
    (platform : MultiIsolatePlatform)
    (args exec_args : list string) : M W NodeMainInstance :=
  NodeMainInstance_from_isolate isolate event_loop platform args exec_args.

(** *** Constructor that creates its own isolate (lines 60-89)

    [NewIsolate] receives a pointer to the parameters, so it hands them back
    as it left them.  [AsEmbedderWrapper] is called on [snapshot_data] as it
    came in, null or not. *)
Definition NodeMainInstance_from_snapshot
    (snapshot_data : option SnapshotData) (event_loop : uv_loop_t)
    (platform : MultiIsolatePlatform)
    (args exec_args : list string) : M W NodeMainInstance :=
  a <- call (ArrayBufferAllocator_Create node) EvArrayBufferAllocatorCreate ;;
  let this :=
    {| args_ := args;
       exec_args_ := exec_args;
       array_buffer_allocator_ := Some a;
       isolate_ := None;
       platform_ := platform;
       isolate_data_ := None;
       isolate_params_ := Some default_CreateParams;
       snapshot_data_ := snapshot_data |} in
  params <- deref (isolate_params_ this) ;;
  let params := set_array_buffer_allocator params (array_buffer_allocator_ this) in
  '(isolate, params) <-
     call (NewIsolate node params event_loop platform snapshot_data)
          (fun r => EvNewIsolate params event_loop platform snapshot_data (fst r)) ;;
  let this := set_isolate_params_ (set_isolate_ this isolate) (Some params) in
  isolate <- CHECK_NOT_NULL (isolate_ this) ;;
  wrapper <- call (AsEmbedderWrapper node snapshot_data)
                  (EvAsEmbedderWrapper snapshot_data) ;;
  d <- call (CreateIsolateData node isolate event_loop platform
               (array_buffer_allocator_ this) wrapper)
            (EvCreateIsolateData isolate event_loop platform
               (array_buffer_allocator_ this) wrapper) ;;
  let d := set_max_young_gen_size d
             (max_young_generation_size_in_bytes (constraints params)) in
  ret (set_isolate_data_ this (Some d)).

(** *** [Dispose] (lines 91-96) *)
Definition Dispose (this : NodeMainInstance) : M W unit :=
  CHECK_NULL (isolate_params_ this) ;;
  call_ (EvDrainTasks (platform_ this) (isolate_ this)).

(** *** Destructor (lines 98-105)

    [destroy_members] is what the language does after the body, on every
    path out of it: the owning members go in the reverse of the order of the
    initializer lists. *)
Definition release {A} (p : option A) (m : A -> Member) : M W unit :=
  match p with Some x => call_ (EvRelease (m x)) | None => ret tt end.

Definition destroy_members (this : NodeMainInstance) : M W unit :=
  release (isolate_params_ this) member_isolate_params ;;
  release (isolate_data_ this) member_isolate_data ;;
  release (array_buffer_allocator_ this) member_array_buffer_allocator.

Definition destructor_body (this : NodeMainInstance) : M W unit :=
  match isolate_params_ this with
  | None => ret tt
  | Some _ =>
      call_ (EvUnregisterIsolate (platform_ this) (isolate_ this)) ;;
      isolate <- deref (isolate_ this) ;;
      call_ (EvIsolateDispose isolate)
  end.

Definition destructor (this : NodeMainInstance) : M W unit :=
  destructor_body this ;;
  destroy_members this.

(** *** [CreateMainEnvironment] (lines 135-167)

    [exit_code] is the value behind the pointer on entry; the value behind
    it on return comes back with the environment. *)
Definition CreateMainEnvironment
    (this : NodeMainInstance) (exit_code : ExitCode)
  : M W (option Environment * ExitCode) :=
  note (EvStoreExitCode kNoFailure) ;;
  let exit_code := kNoFailure in
  scoped (HandleScopeOn (isolate_ this)) (
    d <- deref (isolate_data_ this) ;;
    (if track_heap_objects (options d)
     then isolate <- deref (isolate_ this) ;;
          call_ (EvStartTrackingHeapObjects isolate)
     else ret tt) ;;
    env <-
      match snapshot_data_ this with
      | Some _ =>
          env <- call (CreateEnvironment node d None (args_ this) (exec_args_ this))
                      (EvCreateEnvironment d None (args_ this) (exec_args_ this)) ;;
          (if HAVE_OPENSSL build
           then call_ (EvInitCryptoOnce (isolate_ this))
           else ret tt) ;;
          ret env
      | None =>
          context <- call (NewContext node (isolate_ this))
                          (EvNewContext (isolate_ this)) ;;
          CHECK (negb (IsEmpty context)) ;;
          ctx <- deref context ;;
          scoped (ContextScopeOn ctx) (
            call (CreateEnvironment node d (Some ctx) (args_ this) (exec_args_ this))
                 (EvCreateEnvironment d (Some ctx) (args_ this) (exec_args_ this)))
      end ;;
    ret (env, exit_code)).

(** *** [Run] on an exit code and an environment (lines 122-133) *)
Definition Run_env (exit_code : ExitCode) (env : Environment) : M W ExitCode :=
  exit_code <-
    (if is_kNoFailure exit_code
     then call_ (EvLoadEnvironment env) ;;
          r <- call (SpinEventLoopInternal node env) (EvSpinEventLoopInternal env) ;;
          let c := FromMaybe r kGenericUserError in
          note (EvStoreExitCode c) ;;
          ret c
     else ret exit_code) ;;
  (if LEAK_SANITIZER build then call_ EvLsanDoLeakCheck else ret tt) ;;
  ret exit_code.

(** *** [Run()] (lines 107-120)

    The environment is held by a [DeleteFnPtr<Environment, FreeEnvironment>]
    declared before the context scope, so it is freed after that scope is
    left and before the three outer guards. *)
Definition Run (this : NodeMainInstance) : M W ExitCode :=
  scoped (LockerOn (isolate_ this)) (
  scoped (IsolateScopeOn (isolate_ this)) (
  scoped (HandleScopeOn (isolate_ this)) (
    note (EvStoreExitCode kNoFailure) ;;
    let exit_code := kNoFailure in
    '(env, exit_code) <- CreateMainEnvironment this exit_code ;;
    env <- CHECK_NOT_NULL env ;;
    exit_code <- scoped (ContextScopeOn (context env)) (Run_env exit_code env) ;;
    call_ (EvFreeEnvironment env) ;;
    ret exit_code))).

End Instance.

(** ** The life of one object

    What a holder of the object can call between construction and
    destruction.  No method of the file assigns a member once the
    constructor is over, so every call sees the object as it was built. *)

Variant Call :=
| CallDispose
| CallRun
| CallCreateMainEnvironment (exit_code : ExitCode).

Section Life.

Context {W : Type}.
Variable node : Collaborators W.
Variable build : BuildConfig.

Definition invoke (this : NodeMainInstance) (c : Call) : M W unit :=
  match c with
  | CallDispose => Dispose node this
  | CallRun => Run node build this ;; ret tt
  | CallCreateMainEnvironment exit_code =>
      CreateMainEnvironment node build this exit_code ;; ret tt
  end.

Fixpoint invoke_all (this : NodeMainInstance) (cs : list Call) : M W unit :=
  match cs with
  | [] => ret tt
  | c :: cs' => invoke this c ;; invoke_all this cs'
  end.

(** Construction, any calls, destruction. *)
Definition lifetime (ctor : M W NodeMainInstance) (cs : list Call) : M W unit :=
  this <- ctor ;;
  invoke_all this cs ;;
  destructor node this.

End Life.

(** ** Reading a log *)

(** The teardown of an engine instance: unregistering it and disposing it. *)
Definition is_teardown (e : Event) : bool :=
  match e with
  | EvUnregisterIsolate _ _ | EvIsolateDispose _ => true
  | _ => false
  end.

Definition is_allocator_create (e : Event) : bool :=
  match e with EvArrayBufferAllocatorCreate _ => true | _ => false end.

Definition is_release (e : Event) : bool :=
  match e with EvRelease _ => true | _ => false end.

Definition is_new_context (e : Event) : bool :=
  match e with EvNewContext _ _ => true | _ => false end.

Definition is_create_environment (e : Event) : bool :=
  match e with EvCreateEnvironment _ _ _ _ _ => true | _ => false end.

(** What only the snapshot branch of [CreateMainEnvironment] does: an
    environment created without a context, and [InitCryptoOnce]. *)
Definition is_snapshot_restore (e : Event) : bool :=
  match e with
  | EvCreateEnvironment _ None _ _ _ | EvInitCryptoOnce _ => true
  | _ => false
  end.

(** The program is being executed: loading, or spinning the loop. *)
Definition is_execution (e : Event) : bool :=
  match e with
  | EvLoadEnvironment _ | EvSpinEventLoopInternal _ _ => true
  | _ => false
  end.

(** The values written to the exit code, oldest first. *)
Fixpoint exit_code_history (l : list Event) : list ExitCode :=
  match l with
  | [] => []
  | EvStoreExitCode c :: l' => c :: exit_code_history l'
  | _ :: l' => exit_code_history l'
  end.

(** No write puts no-failure over a failure. *)
Fixpoint never_downgraded (h : list ExitCode) : bool :=
  match h with
  | a :: (b :: _) as t =>
      (is_kNoFailure a || negb (is_kNoFailure b)) && never_downgraded t
  | _ => true
  end.

(** [absent p l]: no event of [l] satisfies [p]. *)
Definition absent (p : Event -> bool) (l : list Event) : Prop :=
  filter p l = [].

(** [silent p m]: whatever the state of the collaborators, [m] logs no
    event that satisfies [p]. *)
Definition silent {W} (p : Event -> bool) {A} (m : M W A) : Prop :=
  forall w, absent p (log_of (m w)).

(** The parameters as the owning constructor hands them to [NewIsolate]. *)
Definition params_for (a : ArrayBufferAllocator) : CreateParams :=
  set_array_buffer_allocator default_CreateParams (Some a).

(** The hypothesis on the engine under which the parameters still name the
    allocator once [NewIsolate] has had them: it may set constraints, it
    leaves the allocator member alone. *)
Definition NewIsolate_keeps_allocator {W} (node : Collaborators W) : Prop :=
  forall params event_loop platform snapshot_data w,
    array_buffer_allocator
      (snd (fst (NewIsolate node params event_loop platform snapshot_data w))) =
    array_buffer_allocator params.

(** ** A scripted process, for running the model

    The collaborators answer from a fixed script; the state counts the calls
    and names the objects they create. *)

Record Script := {
  script_isolate : option Isolate;
  script_context : option Context;
  script_environment : option Environment;
  script_spin : option ExitCode;
  script_options : PerIsolateOptions
}.

Definition scripted (sc : Script) : Collaborators nat := {|
  ArrayBufferAllocator_Create := fun w => (AllocatorAt w, S w);
  NewIsolate := fun p _ _ _ w =>
    (script_isolate sc,
     {| array_buffer_allocator := array_buffer_allocator p;
        constraints := {| max_young_generation_size_in_bytes := 16777216%N |} |},
     S w);
  AsEmbedderWrapper := fun _ w => (EmbedderSnapshotAt w, S w);
  CreateIsolateData := fun _ _ _ _ _ w =>
    ({| data_addr := w; options := script_options sc; max_young_gen_size := 0%N |},
     S w);
  NewIsolateData := fun _ _ _ w =>
    ({| data_addr := w; options := script_options sc; max_young_gen_size := 0%N |},
     S w);
  NewContext := fun _ w => (script_context sc, S w);
  CreateEnvironment := fun _ _ _ _ w => (script_environment sc, S w);
  SpinEventLoopInternal := fun _ w => (script_spin sc, S w);
  effect := fun _ w => S w
|}.

Definition plain_build : BuildConfig :=
  {| HAVE_OPENSSL := true; LEAK_SANITIZER := false |}.

(** Everything succeeds and the program ends without a failure. *)
Definition happy : Script := {|
  script_isolate := Some (IsolateAt 100);
  script_context := Some (ContextAt 200);
  script_environment := Some {| env_addr := 300; context := ContextAt 200 |};
  script_spin := Some kNoFailure;
  script_options := {| track_heap_objects := false |}
|}.

Definition no_isolate : Script := {|
  script_isolate := None;
  script_context := script_context happy;
  script_environment := script_environment happy;
  script_spin := script_spin happy;
  script_options := script_options happy
|}.

Definition no_context : Script := {|
  script_isolate := script_isolate happy;
  script_context := None;
  script_environment := script_environment happy;
  script_spin := script_spin happy;
  script_options := script_options happy
|}.

Definition no_environment : Script := {|
  script_isolate := script_isolate happy;
  script_context := script_context happy;
  script_environment := None;
  script_spin := script_spin happy;
  script_options := script_options happy
|}.

Definition the_loop : uv_loop_t := LoopAt 1.
Definition the_platform : MultiIsolatePlatform := PlatformAt 2.
Definition the_snapshot : SnapshotData := SnapshotAt 3.
Definition the_args : list string := ["node"%string; "main.js"%string].

Definition scripted_data (young : N) : IsolateData :=
  {| data_addr := 3; options := {| track_heap_objects := false |};
     max_young_gen_size := young |}.

Definition scripted_params : CreateParams :=
  {| array_buffer_allocator := Some (AllocatorAt 0);
     constraints := {| max_young_generation_size_in_bytes := 16777216 |} |}.

(** What the owning constructor builds there, given the snapshot [s]. *)
Definition owner (s : option SnapshotData) : NodeMainInstance :=
  {| args_ := the_args; exec_args_ := [];
     array_buffer_allocator_ := Some (AllocatorAt 0);
     isolate_ := Some (IsolateAt 100);
     platform_ := the_platform;
     isolate_data_ := Some (scripted_data 16777216);
     isolate_params_ := Some scripted_params;
     snapshot_data_ := s |}.

(** ** More ways to read a log *)

(** Equality of guards, by the address of what they guard. *)
Definition Isolate_eqb (a b : Isolate) : bool :=
  match a, b with IsolateAt x, IsolateAt y => Nat.eqb x y end.

Definition Context_eqb (a b : Context) : bool :=
  match a, b with ContextAt x, ContextAt y => Nat.eqb x y end.

Definition pointer_eqb {A} (eqb : A -> A -> bool) (p q : option A) : bool :=
  match p, q with
  | Some x, Some y => eqb x y
  | None, None => true
  | _, _ => false
  end.

Definition Guard_eqb (g h : Guard) : bool :=
  match g, h with
  | LockerOn a, LockerOn b => pointer_eqb Isolate_eqb a b
  | IsolateScopeOn a, IsolateScopeOn b => pointer_eqb Isolate_eqb a b
  | HandleScopeOn a, HandleScopeOn b => pointer_eqb Isolate_eqb a b
  | ContextScopeOn a, ContextScopeOn b => Context_eqb a b
  | _, _ => false
  end.

Arguments Guard_eqb : simpl never.

(** Replays the guards of a log on the stack of the guards that are open,
    innermost first.  [None]: some guard was left that was not the
    innermost open one. *)
Fixpoint scope_run (stack : list Guard) (l : list Event) : option (list Guard) :=
  match l with
  | [] => Some stack
  | EvEnter g :: l' => scope_run (g :: stack) l'
  | EvLeave g :: l' =>
      match stack with
      | top :: rest => if Guard_eqb g top then scope_run rest l' else None
      | [] => None
      end
  | _ :: l' => scope_run stack l'
  end.

(** The environments that [CreateEnvironment] gave, and those handed to
    [FreeEnvironment], each in log order. *)
Fixpoint created_environments (l : list Event) : list Environment :=
  match l with
  | [] => []
  | EvCreateEnvironment _ _ _ _ (Some env) :: l' =>
      env :: created_environments l'
  | _ :: l' => created_environments l'
  end.

Fixpoint freed_environments (l : list Event) : list Environment :=
  match l with
  | [] => []
  | EvFreeEnvironment env :: l' => env :: freed_environments l'
  | _ :: l' => freed_environments l'
  end.

(** A collaborator answered with nothing where the file insists on
    something: an empty context, or a null environment. *)
Definition is_null_answer (e : Event) : bool :=
  match e with
  | EvNewContext _ None | EvCreateEnvironment _ _ _ _ None => true
  | _ => false
  end.

(** What the constructors do to set an object up. *)
Definition is_construction (e : Event) : bool :=
  match e with
  | EvArrayBufferAllocatorCreate _ | EvNewIsolate _ _ _ _ _
  | EvAsEmbedderWrapper _ _ | EvCreateIsolateData _ _ _ _ _ _
  | EvNewIsolateData _ _ _ _ | EvSetIsolateMiscHandlers _ => true
  | _ => false
  end.

Definition is_isolate_data_create (e : Event) : bool :=
  match e with
  | EvCreateIsolateData _ _ _ _ _ _ | EvNewIsolateData _ _ _ _ => true
  | _ => false
  end.

Definition is_call_create_environment (c : Call) : bool :=
  match c with CallCreateMainEnvironment _ => true | _ => false end.

(** The event speaks of [this] object and of nothing else: its isolate, its
    platform, its members, the arguments it was constructed with.  Events on
    what a collaborator has just handed over (a context, an environment) are
    not constrained. *)
Definition about (this : NodeMainInstance) (e : Event) : Prop :=
  match e with
  | EvEnter (LockerOn i) | EvLeave (LockerOn i)
  | EvEnter (IsolateScopeOn i) | EvLeave (IsolateScopeOn i)
  | EvEnter (HandleScopeOn i) | EvLeave (HandleScopeOn i)
  | EvNewContext i _ | EvInitCryptoOnce i =>
      i = isolate_ this
  | EvStartTrackingHeapObjects i | EvIsolateDispose i =>
      Some i = isolate_ this
  | EvDrainTasks p i | EvUnregisterIsolate p i =>
      p = platform_ this /\ i = isolate_ this
  | EvCreateEnvironment d _ a ea _ =>
      Some d = isolate_data_ this /\ a = args_ this /\ ea = exec_args_ this
  | EvRelease (member_isolate_params p) => Some p = isolate_params_ this
  | EvRelease (member_isolate_data d) => Some d = isolate_data_ this
  | EvRelease (member_array_buffer_allocator a) =>
      Some a = array_buffer_allocator_ this
  | _ => True
  end.

(** The environments loaded, in log order. *)
Fixpoint loaded_environments (l : list Event) : list Environment :=
  match l with
  | [] => []
  | EvLoadEnvironment env :: l' => env :: loaded_environments l'
  | _ :: l' => loaded_environments l'
  end.

(** The driver run on each environment of a list in turn, the exit code
    handed from one run to the next. *)
Section Drive.

Context {W : Type}.
Variable node : Collaborators W.
Variable build : BuildConfig.

Fixpoint drive (exit_code : ExitCode) (envs : list Environment) : M W ExitCode :=
  match envs with
  | [] => ret exit_code
  | env :: envs' =>
      exit_code <- Run_env node build exit_code env ;;
      drive exit_code envs'
  end.

End Drive.

(** * Properties *)

(** ** Logs of composed computations *)

Section Logs.

Context {W : Type}.

Lemma log_of_bind A B (m : M W A) (f : A -> M W B) (w : W) :
  log_of (bind m f w) =
  match m w with
  | Returned a l w1 => l ++ log_of (f a w1)
  | Aborted l _ => l
  end.
Proof.
  unfold bind. destruct (m w) as [a l w1 | l w1]; [|reflexivity].
  destruct (f a w1); reflexivity.
Qed.

Lemma absent_app p l1 l2 : absent p l1 -> absent p l2 -> absent p (l1 ++ l2).
Proof.
  unfold absent. intros H1 H2. rewrite filter_app, H1, H2. reflexivity.
Qed.

Lemma silent_ret p A (a : A) : silent p (ret (W:=W) a).
Proof. intro w. reflexivity. Qed.

Lemma silent_abort p A : silent p (abort (W:=W) (A:=A)).
Proof. intro w. reflexivity. Qed.

Lemma silent_bind p A B (m : M W A) (f : A -> M W B) :
  silent p m -> (forall a, silent p (f a)) -> silent p (bind m f).
Proof.
  intros Hm Hf w. rewrite log_of_bind.
  specialize (Hm w). destruct (m w) as [a l w1 | l w1]; simpl in Hm.
  - apply absent_app; [assumption | apply Hf].
  - assumption.
Qed.

Lemma silent_note p e : p e = false -> silent p (note (W:=W) e).
Proof. intros He w. unfold absent. simpl. rewrite He. reflexivity. Qed.

Variable node : Collaborators W.

Lemma silent_call_ p e : p e = false -> silent p (call_ node e).
Proof. intros He w. unfold absent. simpl. rewrite He. reflexivity. Qed.

Lemma silent_call p A (f : W -> A * W) (ev : A -> Event) :
  (forall r, p (ev r) = false) -> silent p (call f ev).
Proof.
  intros He w. unfold call, absent. destruct (f w) as [r w1]. simpl.
  rewrite He. reflexivity.
Qed.

Lemma silent_scoped p A g (body : M W A) :
  p (EvEnter g) = false -> p (EvLeave g) = false ->
  silent p body -> silent p (scoped node g body).
Proof.
  intros He Hl Hb. unfold scoped.
  apply silent_bind; [apply silent_call_; assumption | intros _].
  apply silent_bind; [assumption | intros r].
  apply silent_bind; [apply silent_call_; assumption | intros _].
  apply silent_ret.
Qed.

End Logs.

(** Splits a goal [silent p m] along the structure of [m]. *)
Ltac silence :=
  repeat first
    [ apply silent_ret
    | apply silent_abort
    | apply silent_note; reflexivity
    | apply silent_call_; reflexivity
    | apply silent_call; intros; reflexivity
    | apply silent_scoped; [reflexivity | reflexivity | ]
    | apply silent_bind; [ | intros ]
    | match goal with
      | |- silent _ (match ?x with _ => _ end) => destruct x
      | |- silent _ (CHECK_NOT_NULL ?x) => destruct x; simpl
      | |- silent _ (CHECK_NULL ?x) => destruct x; simpl
      | |- silent _ (deref ?x) => destruct x; simpl
      end ].

(** ** What the constructors build *)

Section Built.

Context {W : Type}.
Variable node : Collaborators W.
Variable build : BuildConfig.

(** The constructor over a caller's isolate always returns, and this is
    what it returns. *)
Lemma from_isolate_returns isolate event_loop platform args exec_args w :
  NodeMainInstance_from_isolate node isolate event_loop platform args exec_args w =
  let d := fst (NewIsolateData node isolate event_loop platform w) in
  let w1 := snd (NewIsolateData node isolate event_loop platform w) in
  Returned
    {| args_ := args; exec_args_ := exec_args;
       array_buffer_allocator_ := None; isolate_ := isolate;
       platform_ := platform; isolate_data_ := Some d;
       isolate_params_ := None; snapshot_data_ := None |}
    [EvNewIsolateData isolate event_loop platform d;
     EvSetIsolateMiscHandlers isolate]
    (effect node (EvSetIsolateMiscHandlers isolate) w1).
Proof.
  unfold NodeMainInstance_from_isolate, bind, call, call_, ret. simpl.
  destruct (NewIsolateData node isolate event_loop platform w) as [d w1].
  reflexivity.
Qed.

(** The owning constructor, when it returns: the object and its log. *)
Lemma from_snapshot_returned snapshot_data event_loop platform args exec_args
    w this l w' :
  NodeMainInstance_from_snapshot node snapshot_data event_loop platform
    args exec_args w = Returned this l w' ->
  exists a w1 isolate params w2 wrapper d0,
    ArrayBufferAllocator_Create node w = (a, w1) /\
    NewIsolate node (params_for a) event_loop platform snapshot_data w1 =
      (Some isolate, params, w2) /\
    this =
      {| args_ := args; exec_args_ := exec_args;
         array_buffer_allocator_ := Some a; isolate_ := Some isolate;
         platform_ := platform;
         isolate_data_ :=
           Some (set_max_young_gen_size d0
                   (max_young_generation_size_in_bytes (constraints params)));
         isolate_params_ := Some params; snapshot_data_ := snapshot_data |} /\
    l = [EvArrayBufferAllocatorCreate a;
         EvNewIsolate (params_for a) event_loop platform snapshot_data
           (Some isolate);
         EvAsEmbedderWrapper snapshot_data wrapper;
         EvCreateIsolateData isolate event_loop platform (Some a) wrapper d0].
Proof.
  unfold NodeMainInstance_from_snapshot, bind, call, ret. simpl.
  destruct (ArrayBufferAllocator_Create node w) as [a w1].
  fold (params_for a).
  destruct (NewIsolate node (params_for a) event_loop platform snapshot_data w1)
    as [[[isolate|] params] w2] eqn:Hn; simpl; [|discriminate].
  destruct (AsEmbedderWrapper node snapshot_data w2) as [wrapper w3].
  destruct (CreateIsolateData node isolate event_loop platform (Some a) wrapper w3)
    as [d0 w4].
  simpl. intros H. injection H as <- <- <-.
  exists a, w1, isolate, params, w2, wrapper, d0.
  split; [reflexivity|]. split; [exact Hn|]. split; reflexivity.
Qed.

(** The owning constructor, when [NewIsolate] comes back null. *)
Lemma from_snapshot_aborted snapshot_data event_loop platform args exec_args
    w a w1 params w2 :
  ArrayBufferAllocator_Create node w = (a, w1) ->
  NewIsolate node (params_for a) event_loop platform snapshot_data w1 =
    (None, params, w2) ->
  NodeMainInstance_from_snapshot node snapshot_data event_loop platform
    args exec_args w =
  Aborted [EvArrayBufferAllocatorCreate a;
           EvNewIsolate (params_for a) event_loop platform snapshot_data None]
          w2.
Proof.
  intros Ha Hn.
  unfold NodeMainInstance_from_snapshot, bind, call, ret. simpl.
  rewrite Ha. fold (params_for a). rewrite Hn. reflexivity.
Qed.

(** The owning constructor, when [NewIsolate] gives an isolate. *)
Lemma from_snapshot_returns snapshot_data event_loop platform args exec_args
    w a w1 isolate params w2 :
  ArrayBufferAllocator_Create node w = (a, w1) ->
  NewIsolate node (params_for a) event_loop platform snapshot_data w1 =
    (Some isolate, params, w2) ->
  exists this l w',
    NodeMainInstance_from_snapshot node snapshot_data event_loop platform
      args exec_args w = Returned this l w'.
Proof.
  intros Ha Hn.
  unfold NodeMainInstance_from_snapshot, bind, call, ret. simpl.
  rewrite Ha. fold (params_for a). rewrite Hn. simpl.
  destruct (AsEmbedderWrapper node snapshot_data w2) as [wrapper w3].
  destruct (CreateIsolateData node isolate event_loop platform (Some a) wrapper w3)
    as [d0 w4].
  simpl. eauto.
Qed.

End Built.

(** The owning constructor on the scripted process. *)
Example owner_built sc s :
  script_isolate sc = Some (IsolateAt 100) ->
  script_options sc = {| track_heap_objects := false |} ->
  NodeMainInstance_from_snapshot (scripted sc) s
    the_loop the_platform the_args [] 0 =
  Returned (owner s)
    [EvArrayBufferAllocatorCreate (AllocatorAt 0);
     EvNewIsolate (params_for (AllocatorAt 0)) the_loop the_platform s
       (Some (IsolateAt 100));
     EvAsEmbedderWrapper s (EmbedderSnapshotAt 2);
     EvCreateIsolateData (IsolateAt 100) the_loop the_platform
       (Some (AllocatorAt 0)) (EmbedderSnapshotAt 2) (scripted_data 0)]
    4.
Proof.
  intros Hi Ho.
  unfold NodeMainInstance_from_snapshot, bind, call, ret. cbn.
  rewrite Hi, Ho. reflexivity.
Qed.

(** ** What the methods never do *)

Section Quiet.

Context {W : Type}.
Variable node : Collaborators W.
Variable build : BuildConfig.

Lemma invoke_all_silent p this :
  (forall c, silent p (invoke node build this c)) ->
  forall cs, silent p (invoke_all node build this cs).
Proof.
  intros Hc cs. induction cs as [|c cs IH]; simpl.
  - apply silent_ret.
  - apply silent_bind; [apply Hc | intros _; exact IH].
Qed.

(** No method unregisters or disposes the isolate. *)
Lemma invoke_no_teardown this c : silent is_teardown (invoke node build this c).
Proof.
  destruct c; unfold invoke, Dispose, Run, CreateMainEnvironment, Run_env, CHECK;
    silence.
Qed.

(** No method releases a member. *)
Lemma invoke_no_release this c : silent is_release (invoke node build this c).
Proof.
  destruct c; unfold invoke, Dispose, Run, CreateMainEnvironment, Run_env, CHECK;
    silence.
Qed.

(** No method creates an allocator. *)
Lemma invoke_no_allocator this c :
  silent is_allocator_create (invoke node build this c).
Proof.
  destruct c; unfold invoke, Dispose, Run, CreateMainEnvironment, Run_env, CHECK;
    silence.
Qed.

(** Without a snapshot no method takes the snapshot branch. *)
Lemma invoke_no_snapshot_restore this c :
  snapshot_data_ this = None ->
  silent is_snapshot_restore (invoke node build this c).
Proof.
  intros Hs.
  destruct c; unfold invoke, Dispose, Run, CreateMainEnvironment, Run_env, CHECK;
    rewrite ?Hs; silence.
Qed.

End Quiet.

(** ** Taking a finished computation apart *)

Lemma bind_returned W A B (m : M W A) (f : A -> M W B) w b l w' :
  bind m f w = Returned b l w' ->
  exists a l1 w1 l2,
    m w = Returned a l1 w1 /\ f a w1 = Returned b l2 w' /\ l = l1 ++ l2.
Proof.
  unfold bind. destruct (m w) as [a l1 w1 | l1 w1]; [|discriminate].
  destruct (f a w1) as [b' l2 w2 | l2 w2] eqn:Hf; [|discriminate].
  intros H. injection H as <- <- <-.
  exists a, l1, w1, l2. repeat split. exact Hf.
Qed.

Lemma filter_absent p l1 l2 l3 :
  absent p l1 -> absent p l2 -> filter p (l1 ++ l2 ++ l3) = filter p l3.
Proof.
  unfold absent. intros H1 H2. rewrite !filter_app, H1, H2. reflexivity.
Qed.

(** ** The claims *)

(** C1.  An object built by the owning constructor holds parameters
    ([isolate_params_] is set) and, in [array_buffer_allocator_], the
    allocator that the constructor created, the only one it created.  The
    parameters named that allocator when they went to [NewIsolate], and they
    still name it afterwards if [NewIsolate] leaves that member alone.
    Neither the constructor nor any method releases the allocator, and the
    destructor, which always returns, releases it last, after the isolate
    has been disposed.  An object built over a caller's isolate has
    [isolate_params_] null and holds no allocator, and neither its
    constructor nor any method creates one. *)
Theorem C1_instance_parameters_by_mode :
  forall (W : Type) (node : Collaborators W) (build : BuildConfig)
         (event_loop : uv_loop_t) (platform : MultiIsolatePlatform)
         (args exec_args : list string),
    (forall snapshot_data w this l w',
        NodeMainInstance_from_snapshot node snapshot_data event_loop platform
          args exec_args w = Returned this l w' ->
        exists a params isolate d,
          isolate_params_ this = Some params /\
          array_buffer_allocator_ this = Some a /\
          filter is_allocator_create l = [EvArrayBufferAllocatorCreate a] /\
          In (EvNewIsolate
                {| array_buffer_allocator := Some a;
                   constraints := constraints default_CreateParams |}
                event_loop platform snapshot_data (Some isolate)) l /\
          (NewIsolate_keeps_allocator node ->
           array_buffer_allocator params = Some a) /\
          absent is_release l /\
          (forall cs w1,
              absent is_release (log_of (invoke_all node build this cs w1))) /\
          (forall w2,
              aborted (destructor node this w2) = false /\
              log_of (destructor node this w2) =
                [EvUnregisterIsolate platform (Some isolate);
                 EvIsolateDispose isolate;
                 EvRelease (member_isolate_params params);
                 EvRelease (member_isolate_data d);
                 EvRelease (member_array_buffer_allocator a)]))
    /\
    (forall isolate w,
        exists this l w',
          NodeMainInstance_from_isolate node isolate event_loop platform
            args exec_args w = Returned this l w' /\
          isolate_params_ this = None /\
          array_buffer_allocator_ this = None /\
          absent is_allocator_create l /\
          (forall cs w1,
              absent is_allocator_create
                (log_of (invoke_all node build this cs w1)))).
Proof.
  intros W node build event_loop platform args exec_args. split.
  - intros snapshot_data w this l w' Hbuilt.
    apply from_snapshot_returned in Hbuilt.
    destruct Hbuilt as (a & w1 & isolate & params & w2 & wrapper & d0 &
                        Ha & Hn & -> & ->).
    exists a, params, isolate,
      (set_max_young_gen_size d0
         (max_young_generation_size_in_bytes (constraints params))).
    split; [reflexivity|]. split; [reflexivity|]. split; [reflexivity|].
    split; [right; left; reflexivity|].
    split.
    { intros Hkeep.
      specialize (Hkeep (params_for a) event_loop platform snapshot_data w1).
      rewrite Hn in Hkeep. exact Hkeep. }
    split; [reflexivity|]. split.
    + intros cs wc. apply invoke_all_silent. apply invoke_no_release.
    + intros wd. split; reflexivity.
  - intros isolate w. rewrite from_isolate_returns. simpl.
    eexists _, _, _. split; [reflexivity|]. simpl.
    split; [reflexivity|]. split; [reflexivity|]. split; [reflexivity|].
    intros cs w1. apply invoke_all_silent. apply invoke_no_allocator.
Qed.

(** The scripted engine leaves the allocator member alone. *)
Lemma scripted_keeps_allocator sc : NewIsolate_keeps_allocator (scripted sc).
Proof. intros params event_loop platform snapshot_data w. reflexivity. Defined.

Lemma C1_witness :
  exists this l w',
    NodeMainInstance_from_snapshot (scripted happy) (Some the_snapshot)
      the_loop the_platform the_args [] 0 = Returned this l w' /\
    exists a params isolate d,
      isolate_params_ this = Some params /\
      array_buffer_allocator_ this = Some a /\
      filter is_allocator_create l = [EvArrayBufferAllocatorCreate a] /\
      In (EvNewIsolate
            {| array_buffer_allocator := Some a;
               constraints := constraints default_CreateParams |}
            the_loop the_platform (Some the_snapshot) (Some isolate)) l /\
      array_buffer_allocator params = Some a /\
      absent is_release l /\
      (forall cs w1,
          absent is_release
            (log_of (invoke_all (scripted happy) plain_build this cs w1))) /\
      (forall w2,
          aborted (destructor (scripted happy) this w2) = false /\
          log_of (destructor (scripted happy) this w2) =
            [EvUnregisterIsolate the_platform (Some isolate);
             EvIsolateDispose isolate;
             EvRelease (member_isolate_params params);
             EvRelease (member_isolate_data d);
             EvRelease (member_array_buffer_allocator a)]).
Proof.
  eexists _, _, _. split; [reflexivity|].
  destruct (proj1 (C1_instance_parameters_by_mode (scripted happy) plain_build
                     the_loop the_platform the_args [])
                  (Some the_snapshot) 0 _ _ _ eq_refl)
    as (a & params & isolate & d & Hp & Ha & Hc & Hn & Hk & Hr & Hm & Hd).
  exists a, params, isolate, d.
  split; [exact Hp|]. split; [exact Ha|]. split; [exact Hc|].
  split; [exact Hn|].
  split; [exact (Hk (scripted_keeps_allocator happy))|].
  split; [exact Hr|]. split; [exact Hm | exact Hd].
Defined.

(** C2.  On an object built by the owning constructor [Dispose] aborts at
    its guard: nothing has been logged by then, so no task was drained.  On
    an object built over a caller's isolate [Dispose] returns, and the one
    thing it does is drain the tasks of that isolate on the platform: the
    isolate is neither unregistered nor disposed. *)
Theorem C2_Dispose_by_mode :
  forall (W : Type) (node : Collaborators W)
         (event_loop : uv_loop_t) (platform : MultiIsolatePlatform)
         (args exec_args : list string),
    (forall snapshot_data w this l w',
        NodeMainInstance_from_snapshot node snapshot_data event_loop platform
          args exec_args w = Returned this l w' ->
        forall w1, Dispose node this w1 = Aborted [] w1)
    /\
    (forall isolate w this l w',
        NodeMainInstance_from_isolate node isolate event_loop platform
          args exec_args w = Returned this l w' ->
        forall w1,
          Dispose node this w1 =
          Returned tt [EvDrainTasks platform isolate]
                   (effect node (EvDrainTasks platform isolate) w1)).
Proof.
  intros W node event_loop platform args exec_args. split.
  - intros snapshot_data w this l w' Hbuilt wd.
    apply from_snapshot_returned in Hbuilt.
    destruct Hbuilt as (a & w1 & isolate & params & w2 & wrapper & d0 &
                        _ & _ & -> & _).
    reflexivity.
  - intros isolate w this l w' Hbuilt wd.
    rewrite from_isolate_returns in Hbuilt. simpl in Hbuilt.
    injection Hbuilt as <- _ _. reflexivity.
Qed.

Lemma C2_witness :
  (exists this l w',
      NodeMainInstance_from_snapshot (scripted happy) None
        the_loop the_platform the_args [] 0 = Returned this l w' /\
      Dispose (scripted happy) this w' = Aborted [] w')
  /\
  (exists this l w',
      NodeMainInstance_from_isolate (scripted happy) (Some (IsolateAt 100))
        the_loop the_platform the_args [] 0 = Returned this l w' /\
      Dispose (scripted happy) this w' =
        Returned tt [EvDrainTasks the_platform (Some (IsolateAt 100))] (S w')).
Proof.
  pose proof (C2_Dispose_by_mode (scripted happy)
                the_loop the_platform the_args []) as [Hown Hborrow].
  split.
  - eexists _, _, _. split; [reflexivity|].
    refine (Hown None 0 _ _ _ _ _). reflexivity.
  - eexists _, _, _. split; [reflexivity|].
    refine (Hborrow (Some (IsolateAt 100)) 0 _ _ _ _ _). reflexivity.
Defined.

(** C3.  Over the whole life of an object built over a caller's isolate
    (construction, any calls, destruction) the isolate is never unregistered
    and never disposed, and the destructor of such an object returns.  Over
    a whole life of an object built by the owning constructor that runs to
    its end, the isolate is unregistered from the platform once and disposed
    once, in that order, and it is the destructor that does both; the
    destructor of such an object always returns. *)
Theorem C3_destruction_by_mode :
  forall (W : Type) (node : Collaborators W) (build : BuildConfig)
         (event_loop : uv_loop_t) (platform : MultiIsolatePlatform)
         (args exec_args : list string),
    (forall isolate cs w,
        absent is_teardown
          (log_of (lifetime node build
                     (NodeMainInstance_from_isolate node isolate event_loop
                        platform args exec_args) cs w)) /\
        (forall this l w',
            NodeMainInstance_from_isolate node isolate event_loop platform
              args exec_args w = Returned this l w' ->
            forall w1, aborted (destructor node this w1) = false))
    /\
    (forall snapshot_data w,
        (forall cs l w',
            lifetime node build
              (NodeMainInstance_from_snapshot node snapshot_data event_loop
                 platform args exec_args) cs w = Returned tt l w' ->
            exists isolate,
              filter is_teardown l =
                [EvUnregisterIsolate platform (Some isolate);
                 EvIsolateDispose isolate]) /\
        (forall this l w',
            NodeMainInstance_from_snapshot node snapshot_data event_loop
              platform args exec_args w = Returned this l w' ->
            absent is_teardown l /\
            (forall cs w1,
                absent is_teardown
                  (log_of (invoke_all node build this cs w1))) /\
            (forall w1,
                aborted (destructor node this w1) = false /\
                exists isolate,
                  isolate_ this = Some isolate /\
                  filter is_teardown (log_of (destructor node this w1)) =
                    [EvUnregisterIsolate platform (Some isolate);
                     EvIsolateDispose isolate]))).
Proof.
  intros W node build event_loop platform args exec_args.
  assert (Hown : forall snapshot_data w this l w',
             NodeMainInstance_from_snapshot node snapshot_data event_loop
               platform args exec_args w = Returned this l w' ->
             absent is_teardown l /\
             (forall cs w1,
                 absent is_teardown
                   (log_of (invoke_all node build this cs w1))) /\
             (forall w1,
                 aborted (destructor node this w1) = false /\
                 exists isolate,
                   isolate_ this = Some isolate /\
                   filter is_teardown (log_of (destructor node this w1)) =
                     [EvUnregisterIsolate platform (Some isolate);
                      EvIsolateDispose isolate])).
  { intros snapshot_data w this l w' Hbuilt.
    apply from_snapshot_returned in Hbuilt.
    destruct Hbuilt as (a & w1 & isolate & params & w2 & wrapper & d0 &
                        _ & _ & -> & ->).
    split; [reflexivity|]. split.
    - intros cs wc. apply invoke_all_silent. apply invoke_no_teardown.
    - intros wd. split; [reflexivity|]. exists isolate. split; reflexivity. }
  split.
  - intros isolate cs w. split.
    + unfold lifetime. rewrite log_of_bind, from_isolate_returns. simpl.
      apply (silent_bind (p := is_teardown)).
      * apply invoke_all_silent. apply invoke_no_teardown.
      * intros _. unfold destructor, destructor_body, destroy_members, release.
        simpl. silence.
    + intros this l w' Hbuilt wd.
      rewrite from_isolate_returns in Hbuilt. simpl in Hbuilt.
      injection Hbuilt as <- _ _. reflexivity.
  - intros snapshot_data w. split; [|apply Hown].
    intros cs l w' Hlife. unfold lifetime in Hlife.
    apply bind_returned in Hlife.
    destruct Hlife as (this & l0 & w0 & l12 & Hbuilt & Hrest & ->).
    apply bind_returned in Hrest.
    destruct Hrest as ([] & l1 & w1 & l2 & Hcalls & Hdtor & ->).
    destruct (Hown _ _ _ _ _ Hbuilt) as (H0 & H1 & H2).
    destruct (H2 w1) as (_ & isolate & _ & Hl2).
    exists isolate. rewrite filter_absent.
    + rewrite Hdtor in Hl2. exact Hl2.
    + exact H0.
    + specialize (H1 cs w0). rewrite Hcalls in H1. exact H1.
Qed.

Lemma C3_witness :
  (exists this l w',
      NodeMainInstance_from_isolate (scripted happy) (Some (IsolateAt 100))
        the_loop the_platform the_args [] 0 = Returned this l w' /\
      forall w1, aborted (destructor (scripted happy) this w1) = false)
  /\
  (exists l w',
      lifetime (scripted happy) plain_build
        (NodeMainInstance_from_snapshot (scripted happy) None
           the_loop the_platform the_args []) [CallRun] 0 = Returned tt l w' /\
      exists isolate,
        filter is_teardown l =
          [EvUnregisterIsolate the_platform (Some isolate);
           EvIsolateDispose isolate])
  /\
  (exists this l w',
      NodeMainInstance_from_snapshot (scripted happy) None
        the_loop the_platform the_args [] 0 = Returned this l w' /\
      absent is_teardown l /\
      (forall cs w1,
          absent is_teardown
            (log_of (invoke_all (scripted happy) plain_build this cs w1))) /\
      (forall w1,
          aborted (destructor (scripted happy) this w1) = false /\
          exists isolate,
            isolate_ this = Some isolate /\
            filter is_teardown (log_of (destructor (scripted happy) this w1)) =
              [EvUnregisterIsolate the_platform (Some isolate);
               EvIsolateDispose isolate])).
Proof.
  pose proof (C3_destruction_by_mode (scripted happy) plain_build
                the_loop the_platform the_args []) as [Hborrow Hown].
  split; [|split].
  - eexists _, _, _. split; [reflexivity|].
    refine (proj2 (Hborrow (Some (IsolateAt 100)) [] 0) _ _ _ _). reflexivity.
  - eexists _, _. split; [reflexivity|].
    refine (proj1 (Hown None 0) [CallRun] _ _ _). reflexivity.
  - eexists _, _, _. split; [reflexivity|].
    refine (proj2 (Hown None 0) _ _ _ _). reflexivity.
Defined.

(** C4.  On an object built with a snapshot, [CreateMainEnvironment]
    returns with the exit code reset to no-failure, and what it did is
    exactly this: open a handle scope, start heap tracking if the options
    ask for it, create the environment with no context (it is read from the
    snapshot), call [InitCryptoOnce] when the build has OpenSSL, and close
    the handle scope.  In particular no context is created. *)
Theorem C4_snapshot_restore_path :
  forall (W : Type) (node : Collaborators W) (build : BuildConfig)
         (event_loop : uv_loop_t) (platform : MultiIsolatePlatform)
         (args exec_args : list string)
         (snapshot : SnapshotData) w this l w',
    NodeMainInstance_from_snapshot node (Some snapshot) event_loop platform
      args exec_args w = Returned this l w' ->
    forall exit_code w1,
      exists isolate d env,
        isolate_ this = Some isolate /\
        isolate_data_ this = Some d /\
        value_of (CreateMainEnvironment node build this exit_code w1) =
          Some (env, kNoFailure) /\
        log_of (CreateMainEnvironment node build this exit_code w1) =
          [EvStoreExitCode kNoFailure; EvEnter (HandleScopeOn (Some isolate))]
          ++ (if track_heap_objects (options d)
              then [EvStartTrackingHeapObjects isolate] else [])
          ++ [EvCreateEnvironment d None args exec_args env]
          ++ (if HAVE_OPENSSL build
              then [EvInitCryptoOnce (Some isolate)] else [])
          ++ [EvLeave (HandleScopeOn (Some isolate))] /\
        absent is_new_context
          (log_of (CreateMainEnvironment node build this exit_code w1)).
Proof.
  intros W node build event_loop platform args exec_args snapshot w this l w'
         Hbuilt exit_code wc.
  apply from_snapshot_returned in Hbuilt.
  destruct Hbuilt as (a & w1 & isolate & params & w2 & wrapper & d0 &
                      _ & _ & -> & _).
  exists isolate,
    (set_max_young_gen_size d0
       (max_young_generation_size_in_bytes (constraints params))).
  unfold CreateMainEnvironment, scoped, bind, call, call_, note, ret, deref,
    CHECK.
  destruct d0 as [addr [track] young]. destruct track; cbn;
    match goal with
    | |- context [CreateEnvironment node ?x ?c ?y ?z ?v] =>
        destruct (CreateEnvironment node x c y z v) as [env wn]
    end;
    exists env; destruct (HAVE_OPENSSL build); cbn; repeat split.
Qed.

Lemma C4_witness :
  exists this l w',
    NodeMainInstance_from_snapshot (scripted happy) (Some the_snapshot)
      the_loop the_platform the_args [] 0 = Returned this l w' /\
    exists isolate d env,
      isolate_ this = Some isolate /\
      isolate_data_ this = Some d /\
      value_of (CreateMainEnvironment (scripted happy) plain_build this
                  kGenericUserError w') = Some (env, kNoFailure) /\
      log_of (CreateMainEnvironment (scripted happy) plain_build this
                kGenericUserError w') =
        [EvStoreExitCode kNoFailure; EvEnter (HandleScopeOn (Some isolate))]
        ++ (if track_heap_objects (options d)
            then [EvStartTrackingHeapObjects isolate] else [])
        ++ [EvCreateEnvironment d None the_args [] env]
        ++ (if HAVE_OPENSSL plain_build
            then [EvInitCryptoOnce (Some isolate)] else [])
        ++ [EvLeave (HandleScopeOn (Some isolate))] /\
      absent is_new_context
        (log_of (CreateMainEnvironment (scripted happy) plain_build this
                   kGenericUserError w')).
Proof.
  eexists _, _, _. split; [reflexivity|].
  refine (C4_snapshot_restore_path (scripted happy) plain_build
            the_loop the_platform the_args [] the_snapshot 0 _ _ _).
  reflexivity.
Defined.

(** Asks the collaborator whose answer the goal is waiting for. *)
Ltac answer :=
  match goal with
  | |- context [NewContext ?n ?i ?w] =>
      destruct (NewContext n i w) as [[?|] ?]
  | |- context [CreateEnvironment ?n ?d ?c ?a ?e ?w] =>
      destruct (CreateEnvironment n d c a e w) as [[?|] ?]
  | |- context [SpinEventLoopInternal ?n ?e ?w] =>
      destruct (SpinEventLoopInternal n e w) as [[?|] ?]
  end; cbn.

Ltac open_methods :=
  unfold Run, CreateMainEnvironment, Run_env, scoped, bind, call, call_, note,
    ret, deref, abort, CHECK, CHECK_NOT_NULL.

(** C5.  The owning constructor takes a null snapshot: with one, it returns
    an object as soon as [NewIsolate] gives an isolate, and that object has
    no snapshot.  On such an object [CreateMainEnvironment] (after the exit
    code reset, the handle scope and the optional heap tracking) asks for a
    new context.  If the context comes back empty it aborts there, before
    any environment is created.  Otherwise it enters the scope of that
    context, then creates the environment on that context, leaves both
    scopes and returns the environment. *)
Theorem C5_null_snapshot_fresh_context :
  forall (W : Type) (node : Collaborators W) (build : BuildConfig)
         (event_loop : uv_loop_t) (platform : MultiIsolatePlatform)
         (args exec_args : list string) w,
    (forall a w1 isolate params w2,
        ArrayBufferAllocator_Create node w = (a, w1) ->
        NewIsolate node (params_for a) event_loop platform None w1 =
          (Some isolate, params, w2) ->
        exists this l w',
          NodeMainInstance_from_snapshot node None event_loop platform
            args exec_args w = Returned this l w')
    /\
    (forall this l w',
        NodeMainInstance_from_snapshot node None event_loop platform
          args exec_args w = Returned this l w' ->
        snapshot_data_ this = None /\
        forall exit_code w1,
          exists isolate d context,
            isolate_ this = Some isolate /\
            isolate_data_ this = Some d /\
            let o := CreateMainEnvironment node build this exit_code w1 in
            let before :=
              [EvStoreExitCode kNoFailure;
               EvEnter (HandleScopeOn (Some isolate))]
              ++ (if track_heap_objects (options d)
                  then [EvStartTrackingHeapObjects isolate] else []) in
            match context with
            | Some ctx =>
                exists env,
                  value_of o = Some (env, kNoFailure) /\
                  log_of o =
                    before ++
                    [EvNewContext (Some isolate) (Some ctx);
                     EvEnter (ContextScopeOn ctx);
                     EvCreateEnvironment d (Some ctx) args exec_args env;
                     EvLeave (ContextScopeOn ctx);
                     EvLeave (HandleScopeOn (Some isolate))]
            | None =>
                aborted o = true /\
                log_of o = before ++ [EvNewContext (Some isolate) None]
            end).
Proof.
  intros W node build event_loop platform args exec_args w. split.
  - intros a w1 isolate params w2 Ha Hn.
    exact (from_snapshot_returns node None event_loop platform args exec_args
             w Ha Hn).
  - intros this l w' Hbuilt.
    apply from_snapshot_returned in Hbuilt.
    destruct Hbuilt as (a & w1 & isolate & params & w2 & wrapper & d0 &
                        _ & _ & -> & _).
    split; [reflexivity|]. intros exit_code wc.
    exists isolate,
      (set_max_young_gen_size d0
         (max_young_generation_size_in_bytes (constraints params))).
    open_methods. destruct d0 as [addr [track] young].
    destruct track; cbn.
    + match goal with
      | |- context [NewContext ?n ?i ?w] =>
          destruct (NewContext n i w) as [[ctx|] wn]
      end.
      * exists (Some ctx). cbn. answer; repeat (split || eexists).
      * exists None. cbn. repeat split.
    + match goal with
      | |- context [NewContext ?n ?i ?w] =>
          destruct (NewContext n i w) as [[ctx|] wn]
      end.
      * exists (Some ctx). cbn. answer; repeat (split || eexists).
      * exists None. cbn. repeat split.
Qed.

Lemma C5_witness :
  (exists this l w',
      NodeMainInstance_from_snapshot (scripted happy) None
        the_loop the_platform the_args [] 0 = Returned this l w')
  /\
  (exists this l w',
      NodeMainInstance_from_snapshot (scripted no_context) None
        the_loop the_platform the_args [] 0 = Returned this l w' /\
      snapshot_data_ this = None /\
      forall exit_code w1,
        exists isolate d context,
          isolate_ this = Some isolate /\
          isolate_data_ this = Some d /\
          let o := CreateMainEnvironment (scripted no_context) plain_build
                     this exit_code w1 in
          let before :=
            [EvStoreExitCode kNoFailure;
             EvEnter (HandleScopeOn (Some isolate))]
            ++ (if track_heap_objects (options d)
                then [EvStartTrackingHeapObjects isolate] else []) in
          match context with
          | Some ctx =>
              exists env,
                value_of o = Some (env, kNoFailure) /\
                log_of o =
                  before ++
                  [EvNewContext (Some isolate) (Some ctx);
                   EvEnter (ContextScopeOn ctx);
                   EvCreateEnvironment d (Some ctx) the_args [] env;
                   EvLeave (ContextScopeOn ctx);
                   EvLeave (HandleScopeOn (Some isolate))]
          | None =>
              aborted o = true /\
              log_of o = before ++ [EvNewContext (Some isolate) None]
          end).
Proof.
  split.
  - refine (proj1 (C5_null_snapshot_fresh_context (scripted happy) plain_build
                     the_loop the_platform the_args [] 0) _ _ _ _ _ _ _);
      reflexivity.
  - eexists _, _, _. split; [reflexivity|].
    refine (proj2 (C5_null_snapshot_fresh_context (scripted no_context)
                     plain_build the_loop the_platform the_args [] 0) _ _ _ _).
    reflexivity.
Defined.

(** The two outcomes of C5 on the scripted process. *)
Example fresh_context_run :
  exists this l w',
    NodeMainInstance_from_snapshot (scripted happy) None
      the_loop the_platform the_args [] 0 = Returned this l w' /\
    log_of (CreateMainEnvironment (scripted happy) plain_build this
              kNoFailure w') =
      [EvStoreExitCode kNoFailure;
       EvEnter (HandleScopeOn (Some (IsolateAt 100)));
       EvNewContext (Some (IsolateAt 100)) (Some (ContextAt 200));
       EvEnter (ContextScopeOn (ContextAt 200));
       EvCreateEnvironment
         {| data_addr := 3; options := {| track_heap_objects := false |};
            max_young_gen_size := 16777216 |}
         (Some (ContextAt 200)) the_args []
         (Some {| env_addr := 300; context := ContextAt 200 |});
       EvLeave (ContextScopeOn (ContextAt 200));
       EvLeave (HandleScopeOn (Some (IsolateAt 100)))].
Proof. eexists _, _, _. split; reflexivity. Qed.

Example empty_context_run :
  exists this l w',
    NodeMainInstance_from_snapshot (scripted no_context) None
      the_loop the_platform the_args [] 0 = Returned this l w' /\
    CreateMainEnvironment (scripted no_context) plain_build this
      kNoFailure w' =
      Aborted
        [EvStoreExitCode kNoFailure;
         EvEnter (HandleScopeOn (Some (IsolateAt 100)));
         EvNewContext (Some (IsolateAt 100)) None]
        6.
Proof. eexists _, _, _. split; reflexivity. Qed.

(** ** Fatal conditions *)

(** Closes a goal whose hypothesis [H] finds an event in a log that is
    spelled out and does not hold it. *)
Ltac refute_log H :=
  exfalso; cbn in H;
  repeat (destruct H as [H | H]; [discriminate H|]); exact H.

(** Finds the one place of a spelled-out log where the event of [H] is. *)
Ltac find_in_log H :=
  cbn in H; repeat (destruct H as [H | H]; [try discriminate H|]);
  [injection H as <- | contradiction].

Ltac all_but_last :=
  match goal with
  | |- exists before, ?l = before ++ _ => exists (removelast l); reflexivity
  end.

(** C6.  Three fatal conditions, each stopping the process where it is
    found.  (1) If [NewIsolate] returned null to the owning constructor, the
    constructor aborts and that call is the last thing it did.  (2) If
    [NewContext] returned an empty context to [CreateMainEnvironment], it
    aborts, that call is the last thing it did, and no environment was
    created.  (3) If [CreateEnvironment] returned null during [Run], then
    [Run] aborts, and the program was not loaded and the event loop was not
    spun. *)
Theorem C6_fatal_checks :
  forall (W : Type) (node : Collaborators W) (build : BuildConfig),
    (forall snapshot_data event_loop platform args exec_args w
            params event_loop' platform' snapshot_data',
        let o := NodeMainInstance_from_snapshot node snapshot_data event_loop
                   platform args exec_args w in
        In (EvNewIsolate params event_loop' platform' snapshot_data' None)
           (log_of o) ->
        aborted o = true /\
        exists a,
          log_of o =
            [EvArrayBufferAllocatorCreate a;
             EvNewIsolate (params_for a) event_loop platform snapshot_data
               None])
    /\
    (forall this exit_code w isolate,
        let o := CreateMainEnvironment node build this exit_code w in
        In (EvNewContext isolate None) (log_of o) ->
        aborted o = true /\
        (exists before, log_of o = before ++ [EvNewContext isolate None]) /\
        absent is_create_environment (log_of o))
    /\
    (forall this w isolate_data ctx args exec_args,
        let o := Run node build this w in
        In (EvCreateEnvironment isolate_data ctx args exec_args None)
           (log_of o) ->
        aborted o = true /\
        absent is_execution (log_of o)).
Proof.
  intros W node build. split; [|split].
  - intros snapshot_data event_loop platform args exec_args w
           params event_loop' platform' snapshot_data' o. subst o.
    unfold NodeMainInstance_from_snapshot, bind, call, ret. simpl.
    destruct (ArrayBufferAllocator_Create node w) as [a w1].
    fold (params_for a).
    destruct (NewIsolate node (params_for a) event_loop platform
                snapshot_data w1) as [[[isolate|] params1] w2]; simpl.
    + destruct (AsEmbedderWrapper node snapshot_data w2) as [wrapper w3].
      destruct (CreateIsolateData node isolate event_loop platform (Some a) wrapper w3)
        as [d0 w4].
      intros H. refute_log H.
    + intros _. split; [reflexivity|]. exists a. reflexivity.
  - intros this exit_code w isolate o. subst o.
    destruct this as [args exec_args allocator [iso|] platform
                      [[addr [[|]] young]|] params [snapshot|]];
      destruct build as [[|] leak];
      open_methods; cbn; repeat answer; intros H; try (refute_log H).
    all: find_in_log H; repeat split; all_but_last.
  - intros this w isolate_data ctx args' exec_args' o. subst o.
    destruct this as [args exec_args allocator [iso|] platform
                      [[addr [[|]] young]|] params [snapshot|]];
      destruct build as [[|] [|]];
      open_methods; cbn; repeat answer; intros H; try (refute_log H).
    all: split; reflexivity.
Qed.

Lemma C6_witness :
  (let o := NodeMainInstance_from_snapshot (scripted no_isolate)
              (Some the_snapshot) the_loop the_platform the_args [] 0 in
   aborted o = true /\
   exists a,
     log_of o =
       [EvArrayBufferAllocatorCreate a;
        EvNewIsolate (params_for a) the_loop the_platform (Some the_snapshot)
          None])
  /\
  (let o := CreateMainEnvironment (scripted no_context) plain_build
              (owner None) kNoFailure 4 in
   aborted o = true /\
   (exists before,
       log_of o = before ++ [EvNewContext (Some (IsolateAt 100)) None]) /\
   absent is_create_environment (log_of o))
  /\
  (let o := Run (scripted no_environment) plain_build
              (owner (Some the_snapshot)) 4 in
   aborted o = true /\
   absent is_execution (log_of o)).
Proof.
  pose proof (C6_fatal_checks (scripted no_isolate) plain_build)
    as (Hisolate & _ & _).
  pose proof (C6_fatal_checks (scripted no_context) plain_build)
    as (_ & Hcontext & _).
  pose proof (C6_fatal_checks (scripted no_environment) plain_build)
    as (_ & _ & Henvironment).
  split; [|split].
  - refine (Hisolate (Some the_snapshot) the_loop the_platform the_args [] 0
              (params_for (AllocatorAt 0)) the_loop the_platform
              (Some the_snapshot) _).
    cbn. right. left. reflexivity.
  - refine (Hcontext (owner None) kNoFailure 4 (Some (IsolateAt 100)) _).
    cbn. right. right. left. reflexivity.
  - refine (Henvironment (owner (Some the_snapshot)) 4
              (scripted_data 16777216) None the_args [] _).
    cbn. do 6 right. left. reflexivity.
Defined.

(** ** The execution driver and the exit code *)

(** C7.  [Run] on an exit code and an environment.  Entered with
    no-failure, it loads the environment, then spins the event loop, and the
    exit code becomes what the loop gave, or generic-user-error when the
    loop gave nothing.  Entered with any other exit code, it neither loads
    nor spins and hands the exit code back as it was.  Either way the leak
    check follows when the build has the leak sanitizer. *)
Theorem C7_execution_driver :
  forall (W : Type) (node : Collaborators W) (build : BuildConfig)
         (env : Environment) (w : W),
    (let answer :=
       fst (SpinEventLoopInternal node env
              (effect node (EvLoadEnvironment env) w)) in
     let code :=
       match answer with Some c => c | None => kGenericUserError end in
     let o := Run_env node build kNoFailure env w in
     value_of o = Some code /\
     log_of o =
       [EvLoadEnvironment env;
        EvSpinEventLoopInternal env answer;
        EvStoreExitCode code]
       ++ (if LEAK_SANITIZER build then [EvLsanDoLeakCheck] else []))
    /\
    (forall exit_code,
        exit_code <> kNoFailure ->
        let o := Run_env node build exit_code env w in
        value_of o = Some exit_code /\
        log_of o = (if LEAK_SANITIZER build then [EvLsanDoLeakCheck] else []) /\
        absent is_execution (log_of o)).
Proof.
  intros W node build env w. split.
  - open_methods. cbn.
    destruct (SpinEventLoopInternal node env
                (effect node (EvLoadEnvironment env) w)) as [[c|] w1];
      destruct (LEAK_SANITIZER build); cbn; split; reflexivity.
  - intros exit_code Hfail.
    assert (Hno : is_kNoFailure exit_code = false)
      by (destruct exit_code; [contradiction Hfail|..]; reflexivity).
    open_methods. rewrite Hno.
    destruct (LEAK_SANITIZER build); cbn; repeat split.
Qed.

Lemma C7_witness :
  let o := Run_env (scripted happy) plain_build kGenericUserError
             {| env_addr := 300; context := ContextAt 200 |} 0 in
  value_of o = Some kGenericUserError /\
  log_of o =
    (if LEAK_SANITIZER plain_build then [EvLsanDoLeakCheck] else []) /\
  absent is_execution (log_of o).
Proof.
  refine (proj2 (C7_execution_driver (scripted happy) plain_build
                   {| env_addr := 300; context := ContextAt 200 |} 0)
                kGenericUserError _).
  discriminate.
Defined.

(** The loop ending without a value, on the scripted process. *)
Example loop_without_value :
  Run_env
    (scripted {| script_isolate := None; script_context := None;
                 script_environment := None; script_spin := None;
                 script_options := {| track_heap_objects := false |} |})
    plain_build kNoFailure {| env_addr := 300; context := ContextAt 200 |} 0 =
  Returned kGenericUserError
    [EvLoadEnvironment {| env_addr := 300; context := ContextAt 200 |};
     EvSpinEventLoopInternal {| env_addr := 300; context := ContextAt 200 |}
       None;
     EvStoreExitCode kGenericUserError]
    2.
Proof. reflexivity. Qed.

(** C8.  In any [Run()], on any object and whatever the collaborators
    answer: the first value the exit code takes is no-failure; no later
    write, by [Run], by [CreateMainEnvironment] or by the driver, puts
    no-failure where a failure stood; and when [Run()] returns, it returns
    the value written last. *)
Theorem C8_exit_code_never_downgraded :
  forall (W : Type) (node : Collaborators W) (build : BuildConfig)
         (this : NodeMainInstance) (w : W),
    let o := Run node build this w in
    let h := exit_code_history (log_of o) in
    hd_error h = Some kNoFailure /\
    never_downgraded h = true /\
    forall c, value_of o = Some c -> last h kNoFailure = c.
Proof.
  intros W node build this w o h. subst h o.
  destruct this as [args exec_args allocator [iso|] platform
                      [[addr [[|]] young]|] params [snapshot|]];
    destruct build as [[|] [|]];
    open_methods; cbn; repeat answer;
    (split; [reflexivity|]; split; [reflexivity|]);
    intros code Hc; try discriminate Hc; injection Hc as <-; reflexivity.
Qed.

Lemma C8_witness :
  let o := Run (scripted happy) plain_build (owner None) 4 in
  let h := exit_code_history (log_of o) in
  hd_error h = Some kNoFailure /\
  never_downgraded h = true /\
  last h kNoFailure = kNoFailure.
Proof.
  destruct (C8_exit_code_never_downgraded (scripted happy) plain_build
              (owner None) 4) as (Hfirst & Hmono & Hlast).
  split; [exact Hfirst|]. split; [exact Hmono|].
  apply Hlast. reflexivity.
Defined.

(** Outside [Run()] the reset at the top of [CreateMainEnvironment] does
    overwrite what the caller had: here a generic-user-error. *)
Example CreateMainEnvironment_resets :
  value_of (CreateMainEnvironment (scripted happy) plain_build (owner None)
              kGenericUserError 4) =
  Some (Some {| env_addr := 300; context := ContextAt 200 |}, kNoFailure).
Proof. reflexivity. Qed.

(** ** The constructor over a caller's isolate *)

(** C9, as the claim has it, fails: given a null isolate the constructor
    does not abort; it returns an object that holds the null pointer. *)
Lemma C9_counterexample :
  NodeMainInstance_from_isolate (scripted happy) None
    the_loop the_platform the_args [] 0 =
  Returned
    {| args_ := the_args; exec_args_ := [];
       array_buffer_allocator_ := None; isolate_ := None;
       platform_ := the_platform;
       isolate_data_ :=
         Some {| data_addr := 0;
                 options := {| track_heap_objects := false |};
                 max_young_gen_size := 0 |};
       isolate_params_ := None; snapshot_data_ := None |}
    [EvNewIsolateData None the_loop the_platform
       {| data_addr := 0; options := {| track_heap_objects := false |};
          max_young_gen_size := 0 |};
     EvSetIsolateMiscHandlers None]
    2.
Proof. reflexivity. Qed.

(** C9, amended.  The constructor over a caller's isolate checks nothing:
    whatever pointer it is given, null or not, it returns, and the object
    holds that pointer, has no parameters, no allocator and no snapshot, and
    holds the isolate data made for that pointer; all the constructor did
    was make that data and set the isolate's handlers. *)
Theorem C9_from_isolate_unchecked :
  forall (W : Type) (node : Collaborators W)
         (isolate : option Isolate) (event_loop : uv_loop_t)
         (platform : MultiIsolatePlatform) (args exec_args : list string) w,
    exists this d w',
      NodeMainInstance_from_isolate node isolate event_loop platform
        args exec_args w =
      Returned this
        [EvNewIsolateData isolate event_loop platform d;
         EvSetIsolateMiscHandlers isolate]
        w' /\
      isolate_ this = isolate /\
      isolate_data_ this = Some d /\
      isolate_params_ this = None /\
      array_buffer_allocator_ this = None /\
      snapshot_data_ this = None.
Proof.
  intros W node isolate event_loop platform args exec_args w.
  rewrite from_isolate_returns. cbv zeta.
  eexists _, _, _. repeat split.
Qed.

(** C10.  An object built over a caller's isolate has no snapshot.  So no
    call on it, however many and in whatever order, creates an environment
    without a context or calls [InitCryptoOnce]; every environment that
    [CreateMainEnvironment] returns on it was created on a context that
    [NewContext] had just given, inside the scope of that context; and when
    [CreateMainEnvironment] aborts on it, no environment was created. *)
Theorem C10_borrowed_never_restores :
  forall (W : Type) (node : Collaborators W) (build : BuildConfig)
         (event_loop : uv_loop_t) (platform : MultiIsolatePlatform)
         (args exec_args : list string) isolate w this l w',
    NodeMainInstance_from_isolate node isolate event_loop platform
      args exec_args w = Returned this l w' ->
    snapshot_data_ this = None /\
    (forall cs w1,
        absent is_snapshot_restore
          (log_of (invoke_all node build this cs w1))) /\
    (forall exit_code w1 env c lg w2,
        CreateMainEnvironment node build this exit_code w1 =
          Returned (env, c) lg w2 ->
        exists d before ctx,
          isolate_data_ this = Some d /\
          absent is_create_environment before /\
          lg = before ++
               [EvNewContext isolate (Some ctx);
                EvEnter (ContextScopeOn ctx);
                EvCreateEnvironment d (Some ctx) args exec_args env;
                EvLeave (ContextScopeOn ctx);
                EvLeave (HandleScopeOn isolate)]) /\
    (forall exit_code w1,
        let o := CreateMainEnvironment node build this exit_code w1 in
        aborted o = true -> absent is_create_environment (log_of o)).
Proof.
  intros W node build event_loop platform args exec_args isolate w this l w'
         Hbuilt.
  rewrite from_isolate_returns in Hbuilt. simpl in Hbuilt.
  injection Hbuilt as <- _ _.
  split; [reflexivity|]. split; [|split].
  - intros cs w1. apply invoke_all_silent. intros c.
    apply invoke_no_snapshot_restore. reflexivity.
  - intros exit_code w1 env c lg w2.
    destruct (NewIsolateData node isolate event_loop platform w)
      as [[addr [track] young] wn].
    open_methods; cbn.
    destruct track, isolate as [iso|]; cbn; repeat answer; intros H;
      try discriminate H; injection H as <- <- <- _.
    all: eexists _, _, _; split; [reflexivity|].
    all: match goal with
         | |- absent _ ?b /\ ?L = ?b ++ _ =>
             unify b (List.firstn (List.length L - 5) L)
         end; split; reflexivity.
  - intros exit_code w1 o. subst o.
    destruct (NewIsolateData node isolate event_loop platform w)
      as [[addr [track] young] wn].
    open_methods; cbn.
    destruct track, isolate as [iso|]; cbn; repeat answer; intros H;
      try discriminate H; reflexivity.
Qed.

Lemma C10_witness :
  (exists this l w',
      NodeMainInstance_from_isolate (scripted happy) (Some (IsolateAt 100))
        the_loop the_platform the_args [] 0 = Returned this l w' /\
      snapshot_data_ this = None /\
      (forall cs w1,
          absent is_snapshot_restore
            (log_of (invoke_all (scripted happy) plain_build this cs w1))) /\
      exists d before ctx,
        isolate_data_ this = Some d /\
        absent is_create_environment before /\
        log_of (CreateMainEnvironment (scripted happy) plain_build this
                  kNoFailure w') =
          before ++
          [EvNewContext (Some (IsolateAt 100)) (Some ctx);
           EvEnter (ContextScopeOn ctx);
           EvCreateEnvironment d (Some ctx) the_args []
             (Some {| env_addr := 300; context := ContextAt 200 |});
           EvLeave (ContextScopeOn ctx);
           EvLeave (HandleScopeOn (Some (IsolateAt 100)))])
  /\
  (exists this l w',
      NodeMainInstance_from_isolate (scripted no_context)
        (Some (IsolateAt 100)) the_loop the_platform the_args [] 0 =
        Returned this l w' /\
      absent is_create_environment
        (log_of (CreateMainEnvironment (scripted no_context) plain_build this
                   kNoFailure w'))).
Proof.
  split.
  - eexists _, _, _. split; [reflexivity|].
    destruct (C10_borrowed_never_restores (scripted happy) plain_build
                the_loop the_platform the_args [] (Some (IsolateAt 100)) 0
                eq_refl) as (Hs & Hcalls & Hfresh & _).
    split; [exact Hs|]. split; [exact Hcalls|].
    exact (Hfresh kNoFailure 2 _ _ _ _ eq_refl).
  - eexists _, _, _. split; [reflexivity|].
    destruct (C10_borrowed_never_restores (scripted no_context) plain_build
                the_loop the_platform the_args [] (Some (IsolateAt 100)) 0
                eq_refl) as (_ & _ & _ & Habort).
    exact (Habort kNoFailure 2 eq_refl).
Defined.

(** * More properties *)

(** ** Guards *)

Lemma Guard_eqb_refl g : Guard_eqb g g = true.
Proof.
  destruct g as [[[n]|] | [[n]|] | [[n]|] | [n]]; unfold Guard_eqb; simpl;
    auto using Nat.eqb_refl.
Qed.

Lemma Guard_eqb_eq g h : Guard_eqb g h = true -> g = h.
Proof.
  destruct g as [[[n]|] | [[n]|] | [[n]|] | [n]],
           h as [[[m]|] | [[m]|] | [[m]|] | [m]]; unfold Guard_eqb; simpl;
    intros H; try discriminate H; try reflexivity;
    apply Nat.eqb_eq in H; subst; reflexivity.
Qed.

Lemma scope_run_app l1 : forall stack l2,
  scope_run stack (l1 ++ l2) =
  match scope_run stack l1 with
  | Some stack' => scope_run stack' l2
  | None => None
  end.
Proof.
  induction l1 as [|e l1 IH]; intros stack l2; [reflexivity|].
  destruct e; simpl; try apply IH.
  destruct stack as [|top rest]; [reflexivity|].
  destruct (Guard_eqb g top); [apply IH | reflexivity].
Qed.

Lemma aborted_bind W A B (m : M W A) (f : A -> M W B) w :
  aborted (bind m f w) =
  match m w with
  | Returned a _ w1 => aborted (f a w1)
  | Aborted _ _ => true
  end.
Proof.
  unfold bind. destruct (m w) as [a l w1 | l w1]; [|reflexivity].
  destruct (f a w1); reflexivity.
Qed.

(** Takes an object apart down to the members the methods branch on. *)
Ltac open_object this :=
  destruct this as [?args ?exec_args ?allocator [?iso|] ?platform
                    [[?addr [[|]] ?young]|] [?params|] [?snapshot|]].

(** The same, and the allocator too, which only the destructor looks at. *)
Ltac open_whole_object this :=
  destruct this as [?args ?exec_args [?a|] [?iso|] ?platform
                    [[?addr [[|]] ?young]|] [?params|] [?snapshot|]].

Ltac open_calls :=
  unfold invoke, Dispose, destructor, destructor_body, destroy_members,
    release, CHECK_NULL;
  open_methods.

Section Scopes.

Context {W : Type}.
Variable node : Collaborators W.
Variable build : BuildConfig.

Lemma invoke_scopes this c w stack :
  let o := invoke node build this c w in
  scope_run stack (log_of o) <> None /\
  (aborted o = false -> scope_run stack (log_of o) = Some stack).
Proof.
  destruct c; open_object this; destruct build as [[|] [|]];
    open_calls; cbn; repeat answer;
    repeat (cbn; rewrite ?Guard_eqb_refl);
    (split; [discriminate | intros H; try discriminate H; reflexivity]).
Qed.

End Scopes.

(** X1.  Over any sequence of calls on any object, guards are left in the
    reverse of the order in which they were entered, each by the guard that
    entered it; and if the calls all return, every guard they entered has
    been left. *)
Theorem calls_keep_scopes_nested :
  forall (W : Type) (node : Collaborators W) (build : BuildConfig)
         (this : NodeMainInstance) (cs : list Call) (w : W)
         (stack : list Guard),
    let o := invoke_all node build this cs w in
    scope_run stack (log_of o) <> None /\
    (aborted o = false -> scope_run stack (log_of o) = Some stack).
Proof.
  intros W node build this cs. induction cs as [|c cs IH]; intros w stack.
  - split; [discriminate | reflexivity].
  - cbn zeta. cbn [invoke_all]. rewrite log_of_bind, aborted_bind.
    pose proof (invoke_scopes node build this c w stack) as [Hok Hdone].
    destruct (invoke node build this c w) as [[] l1 w1 | l1 w1]; cbn in *.
    + rewrite scope_run_app, (Hdone eq_refl). apply IH.
    + split; [exact Hok | discriminate].
Qed.

Lemma calls_keep_scopes_nested_witness :
  scope_run [] (log_of (invoke_all (scripted happy) plain_build (owner None)
                          [CallRun; CallCreateMainEnvironment kNoFailure] 4))
  = Some [].
Proof.
  refine (proj2 (calls_keep_scopes_nested (scripted happy) plain_build
                   (owner None)
                   [CallRun; CallCreateMainEnvironment kNoFailure] 4 []) _).
  reflexivity.
Defined.

(** X2.  Everything [Run()] does, it does holding the lock on the object's
    isolate: the lock is the first thing it takes, and when [Run()] returns
    the lock is the last thing it gave up. *)
Theorem Run_under_lock :
  forall (W : Type) (node : Collaborators W) (build : BuildConfig)
         (this : NodeMainInstance) (w : W),
    let o := Run node build this w in
    hd_error (log_of o) = Some (EvEnter (LockerOn (isolate_ this))) /\
    (aborted o = false ->
     last (log_of o) EvLsanDoLeakCheck = EvLeave (LockerOn (isolate_ this))).
Proof.
  intros W node build this w o. subst o.
  open_object this; destruct build as [[|] [|]];
    open_methods; cbn; repeat answer;
    (split; [reflexivity | intros H; try discriminate H; reflexivity]).
Qed.

Lemma Run_under_lock_witness :
  let o := Run (scripted happy) plain_build (owner None) 4 in
  hd_error (log_of o) = Some (EvEnter (LockerOn (Some (IsolateAt 100)))) /\
  last (log_of o) EvLsanDoLeakCheck = EvLeave (LockerOn (Some (IsolateAt 100))).
Proof.
  destruct (Run_under_lock (scripted happy) plain_build (owner None) 4)
    as [Hfirst Hlast].
  split; [exact Hfirst | exact (Hlast eq_refl)].
Defined.

(** ** Environments *)

Lemma created_environments_app l1 l2 :
  created_environments (l1 ++ l2) =
  created_environments l1 ++ created_environments l2.
Proof.
  induction l1 as [|e l1 IH]; [reflexivity|].
  destruct e; simpl; try exact IH.
  destruct result; simpl; [f_equal|]; exact IH.
Qed.

Lemma freed_environments_app l1 l2 :
  freed_environments (l1 ++ l2) =
  freed_environments l1 ++ freed_environments l2.
Proof.
  induction l1 as [|e l1 IH]; [reflexivity|].
  destruct e; simpl; try exact IH. f_equal. exact IH.
Qed.

Section Environments.

Context {W : Type}.
Variable node : Collaborators W.
Variable build : BuildConfig.

Lemma invoke_frees_what_it_creates this c w :
  is_call_create_environment c = false ->
  let o := invoke node build this c w in
  freed_environments (log_of o) = created_environments (log_of o).
Proof.
  destruct c; [intros _ | intros _ | discriminate];
    open_object this; destruct build as [[|] [|]];
    open_calls; cbn; repeat answer; reflexivity.
Qed.

End Environments.

(** X3.  [Run()] and [Dispose()] leak no environment: over any sequence of
    such calls on any object, returned or aborted, the environments handed
    to [FreeEnvironment] are exactly the environments [CreateEnvironment]
    gave, in the same order. *)
Theorem Run_frees_what_it_creates :
  forall (W : Type) (node : Collaborators W) (build : BuildConfig)
         (this : NodeMainInstance) (cs : list Call) (w : W),
    forallb (fun c => negb (is_call_create_environment c)) cs = true ->
    let o := invoke_all node build this cs w in
    freed_environments (log_of o) = created_environments (log_of o).
Proof.
  intros W node build this cs. induction cs as [|c cs IH]; intros w Hcs.
  - reflexivity.
  - cbn in Hcs. apply andb_true_iff in Hcs. destruct Hcs as [Hc Hcs].
    apply negb_true_iff in Hc.
    cbn zeta. cbn [invoke_all]. rewrite log_of_bind.
    pose proof (invoke_frees_what_it_creates node build this c w Hc) as H1.
    cbn zeta in H1.
    destruct (invoke node build this c w) as [[] l1 w1 | l1 w1]; cbn in H1.
    + rewrite freed_environments_app, created_environments_app, H1.
      f_equal. apply IH. exact Hcs.
    + exact H1.
Qed.

Lemma Run_frees_what_it_creates_witness :
  let o := invoke_all (scripted happy) plain_build (owner None)
             [CallRun; CallRun] 4 in
  freed_environments (log_of o) = created_environments (log_of o).
Proof.
  refine (Run_frees_what_it_creates (scripted happy) plain_build (owner None)
            [CallRun; CallRun] 4 _).
  reflexivity.
Defined.

(** X4.  When [Run()] returns, on whatever object: it created exactly one
    environment; it loaded that environment and then spun the event loop on
    it, each once and nothing else of the kind; it did both inside the
    scope of that environment's own context; and what it returns is what
    the loop gave, or generic-user-error if the loop gave nothing. *)
Theorem Run_executes_once :
  forall (W : Type) (node : Collaborators W) (build : BuildConfig)
         (this : NodeMainInstance) (w : W) (c : ExitCode),
    let o := Run node build this w in
    value_of o = Some c ->
    exists env answer before after,
      created_environments (log_of o) = [env] /\
      filter is_execution (log_of o) =
        [EvLoadEnvironment env; EvSpinEventLoopInternal env answer] /\
      log_of o =
        before ++
        [EvEnter (ContextScopeOn (context env));
         EvLoadEnvironment env;
         EvSpinEventLoopInternal env answer;
         EvStoreExitCode c] ++ after /\
      absent is_execution before /\
      c = match answer with Some code => code | None => kGenericUserError end.
Proof.
  intros W node build this w c o. subst o.
  open_object this; destruct build as [[|] [|]];
    open_methods; cbn; repeat answer; intros H; try discriminate H;
    injection H as <-.
  all: match goal with
       | |- exists env answer before after,
              _ /\ _ /\ ?l = _ /\ _ /\ _ =>
           match l with
           | context [EvSpinEventLoopInternal ?e ?a :: EvStoreExitCode _ :: ?rest] =>
               exists e, a,
                 (List.firstn (List.length l - List.length rest - 4) l), rest
           end
       end.
  all: repeat split.
Qed.

Lemma Run_executes_once_witness :
  let o := Run (scripted happy) plain_build (owner None) 4 in
  exists env answer before after,
    created_environments (log_of o) = [env] /\
    filter is_execution (log_of o) =
      [EvLoadEnvironment env; EvSpinEventLoopInternal env answer] /\
    log_of o =
      before ++
      [EvEnter (ContextScopeOn (context env));
       EvLoadEnvironment env;
       EvSpinEventLoopInternal env answer;
       EvStoreExitCode kNoFailure] ++ after /\
    absent is_execution before /\
    kNoFailure =
      match answer with Some code => code | None => kGenericUserError end.
Proof.
  refine (@Run_executes_once _ (scripted happy) plain_build (owner None) 4
            kNoFailure _).
  reflexivity.
Defined.

(** X5.  On an object that has an isolate and isolate data (as every
    object of the owning constructor has), [Run()] aborts in exactly two
    cases: [NewContext] gave an empty context, or [CreateEnvironment] gave
    no environment.  Whatever the program and the event loop do comes back
    as an exit code. *)
Theorem Run_aborts_only_on_null_answer :
  forall (W : Type) (node : Collaborators W) (build : BuildConfig)
         (this : NodeMainInstance) (w : W),
    isolate_ this <> None ->
    isolate_data_ this <> None ->
    let o := Run node build this w in
    aborted o = existsb is_null_answer (log_of o).
Proof.
  intros W node build this w Hi Hd o. subst o.
  open_object this; try contradiction; destruct build as [[|] [|]];
    open_methods; cbn; repeat answer; reflexivity.
Qed.

Lemma Run_aborts_only_on_null_answer_witness :
  let o := Run (scripted no_context) plain_build (owner None) 4 in
  aborted o = existsb is_null_answer (log_of o).
Proof.
  refine (Run_aborts_only_on_null_answer (scripted no_context) plain_build
            (owner None) 4 _ _); discriminate.
Defined.

(** ** Handing an isolate in, and taking it back *)

(** X6.  An object made by [Create] can be disposed of as often as one
    likes: any number of [Dispose()] calls in a row all return, and all
    they do is drain the tasks of the caller's isolate on the platform, once
    per call. *)
Theorem Create_Dispose_repeatable :
  forall (W : Type) (node : Collaborators W) (build : BuildConfig)
         (isolate : option Isolate) (event_loop : uv_loop_t)
         (platform : MultiIsolatePlatform) (args exec_args : list string)
         w this l w',
    Create node isolate event_loop platform args exec_args w =
      Returned this l w' ->
    forall n w1,
      let o := invoke_all node build this (repeat CallDispose n) w1 in
      aborted o = false /\
      log_of o = repeat (EvDrainTasks platform isolate) n.
Proof.
  intros W node build isolate event_loop platform args exec_args w this l w'
         Hbuilt.
  unfold Create in Hbuilt. rewrite from_isolate_returns in Hbuilt.
  cbv zeta in Hbuilt. injection Hbuilt as <- _ _.
  induction n as [|n IH]; intros w1.
  - split; reflexivity.
  - cbn zeta. cbn [repeat invoke_all].
    rewrite log_of_bind, aborted_bind. cbn.
    destruct (IH (effect node (EvDrainTasks platform isolate) w1)) as [Ha Hl].
    split; [exact Ha | f_equal; exact Hl].
Qed.

Lemma Create_Dispose_repeatable_witness :
  exists this l w',
    Create (scripted happy) (Some (IsolateAt 100)) the_loop the_platform
      the_args [] 0 = Returned this l w' /\
    let o := invoke_all (scripted happy) plain_build this
               (repeat CallDispose 3) w' in
    aborted o = false /\
    log_of o = repeat (EvDrainTasks the_platform (Some (IsolateAt 100))) 3.
Proof.
  eexists _, _, _. split; [reflexivity|].
  refine (Create_Dispose_repeatable (scripted happy) plain_build
            (Some (IsolateAt 100)) the_loop the_platform the_args [] 0 _ 3 _).
  reflexivity.
Defined.

(** X7.  [Dispose()] and the destructor split the objects between them, on
    the one test of [isolate_params_]: for any object whatever, [Dispose()]
    aborts exactly when the destructor goes on to unregister the isolate. *)
Theorem Dispose_aborts_iff_destructor_tears_down :
  forall (W : Type) (node : Collaborators W) (this : NodeMainInstance)
         (w w' : W),
    aborted (Dispose node this w) =
    existsb is_teardown (log_of (destructor node this w')).
Proof.
  intros W node this w w'. open_whole_object this; open_calls; reflexivity.
Qed.

(** ** What the owning constructor puts together *)

(** X8.  In an object of the owning constructor, the isolate data is the
    one [CreateIsolateData] made for the isolate [NewIsolate] gave, with the
    object's own allocator and the wrapper of the snapshot the constructor
    was given; and its [max_young_gen_size] has been set to the
    young-generation limit of the parameters as [NewIsolate] left them, the
    parameters the object keeps. *)
Theorem owning_isolate_data :
  forall (W : Type) (node : Collaborators W)
         (snapshot_data : option SnapshotData) (event_loop : uv_loop_t)
         (platform : MultiIsolatePlatform) (args exec_args : list string)
         w this l w',
    NodeMainInstance_from_snapshot node snapshot_data event_loop platform
      args exec_args w = Returned this l w' ->
    exists a isolate params wrapper d0 d w1 w2,
      NewIsolate node (params_for a) event_loop platform snapshot_data w1 =
        (Some isolate, params, w2) /\
      isolate_ this = Some isolate /\
      isolate_params_ this = Some params /\
      isolate_data_ this = Some d /\
      max_young_gen_size d =
        max_young_generation_size_in_bytes (constraints params) /\
      options d = options d0 /\
      data_addr d = data_addr d0 /\
      filter is_isolate_data_create l =
        [EvCreateIsolateData isolate event_loop platform (Some a) wrapper d0] /\
      array_buffer_allocator_ this = Some a /\
      In (EvAsEmbedderWrapper snapshot_data wrapper) l /\
      snapshot_data_ this = snapshot_data /\
      args_ this = args /\ exec_args_ this = exec_args /\
      platform_ this = platform.
Proof.
  intros W node snapshot_data event_loop platform args exec_args w this l w'
         Hbuilt.
  apply from_snapshot_returned in Hbuilt.
  destruct Hbuilt as (a & w1 & isolate & params & w2 & wrapper & d0 &
                      _ & Hn & -> & ->).
  exists a, isolate, params, wrapper, d0,
    (set_max_young_gen_size d0
       (max_young_generation_size_in_bytes (constraints params))), w1, w2.
  split; [exact Hn|]. cbn. intuition.
Qed.

Lemma owning_isolate_data_witness :
  exists this l w',
    NodeMainInstance_from_snapshot (scripted happy) (Some the_snapshot)
      the_loop the_platform the_args [] 0 = Returned this l w' /\
    exists d,
      isolate_data_ this = Some d /\ max_young_gen_size d = 16777216%N.
Proof.
  eexists _, _, _. split; [reflexivity|].
  destruct (owning_isolate_data (scripted happy) (Some the_snapshot)
              the_loop the_platform the_args [] 0 eq_refl)
    as (a & isolate & params & wrapper & d0 & d & w1 & w2 &
        Hn & _ & _ & Hd & Hy & _).
  exists d. split; [exact Hd|].
  rewrite Hy. injection Hn as _ <- _. reflexivity.
Defined.

(** ** Whose isolate, whose arguments *)

Section About.

Context {W : Type}.
Variable node : Collaborators W.
Variable build : BuildConfig.

Lemma invoke_about this c w :
  Forall (about this) (log_of (invoke node build this c w)).
Proof.
  destruct c; open_object this; destruct build as [[|] [|]];
    open_calls; cbn; repeat answer;
    repeat (constructor; cbn; auto).
Qed.

Lemma destructor_about this w :
  Forall (about this) (log_of (destructor node this w)).
Proof.
  open_whole_object this; open_calls; cbn; repeat (constructor; cbn; auto).
Qed.

Lemma Forall_log_bind (P : Event -> Prop) A B (m : M W A) (f : A -> M W B) w :
  Forall P (log_of (m w)) ->
  (forall a w1, Forall P (log_of (f a w1))) ->
  Forall P (log_of (bind m f w)).
Proof.
  intros Hm Hf. rewrite log_of_bind.
  destruct (m w) as [a l1 w1 | l1 w1]; cbn in Hm; [|exact Hm].
  apply Forall_app. split; [exact Hm | apply Hf].
Qed.

Lemma invoke_all_about this cs :
  forall w, Forall (about this) (log_of (invoke_all node build this cs w)).
Proof.
  induction cs as [|c cs IH]; intros w; [constructor|].
  cbn [invoke_all]. apply Forall_log_bind; [apply invoke_about|].
  intros _ w1. apply IH.
Qed.

End About.

(** X9.  Over a whole life after construction (any calls, then the
    destructor), every lock, scope, context request, task drain, heap
    tracking, unregistration and disposal is on the object's own isolate and
    platform; every environment is created with the object's own isolate
    data and with the arguments the object was constructed with; and only
    the object's own members are released. *)
Theorem calls_stay_on_the_object :
  forall (W : Type) (node : Collaborators W) (build : BuildConfig)
         (this : NodeMainInstance) (cs : list Call) (w : W),
    Forall (about this)
      (log_of (bind (invoke_all node build this cs)
                    (fun _ => destructor node this) w)).
Proof.
  intros W node build this cs w. apply Forall_log_bind.
  - apply invoke_all_about.
  - intros _ w1. apply destructor_about.
Qed.

(** X10.  Setting an object up is the constructors' business only: no call
    and no destructor, on any object, creates an allocator, an isolate or
    isolate data, wraps a snapshot or sets the isolate's handlers. *)
Theorem only_constructors_construct :
  forall (W : Type) (node : Collaborators W) (build : BuildConfig)
         (this : NodeMainInstance) (cs : list Call) (w : W),
    absent is_construction
      (log_of (bind (invoke_all node build this cs)
                    (fun _ => destructor node this) w)).
Proof.
  intros W node build this cs w.
  apply (silent_bind (p := is_construction)).
  - apply invoke_all_silent. intros c.
    destruct c;
      unfold invoke, Dispose, Run, CreateMainEnvironment, Run_env, CHECK;
      silence.
  - intros _. unfold destructor, destructor_body, destroy_members, release.
    silence.
Qed.

(** ** The driver, run again and again *)

Lemma loaded_environments_app l1 l2 :
  loaded_environments (l1 ++ l2) =
  loaded_environments l1 ++ loaded_environments l2.
Proof.
  induction l1 as [|e l1 IH]; [reflexivity|].
  destruct e; simpl; try exact IH. f_equal. exact IH.
Qed.

Section Driver.

Context {W : Type}.
Variable node : Collaborators W.
Variable build : BuildConfig.

(** One run of the driver: it returns; from no-failure it loads the
    environment, from a failure it does nothing and keeps the failure. *)
Lemma Run_env_returns exit_code env w :
  exists c l w',
    Run_env node build exit_code env w = Returned c l w' /\
    if is_kNoFailure exit_code
    then loaded_environments l = [env]
    else c = exit_code /\ loaded_environments l = [] /\
         absent is_execution l /\ exit_code_history l = [].
Proof.
  open_methods. destruct exit_code; cbn.
  - destruct (SpinEventLoopInternal node env
                (effect node (EvLoadEnvironment env) w)) as [[c|] w1];
      destruct (LEAK_SANITIZER build); cbn; eexists _, _, _;
      split; reflexivity.
  - destruct (LEAK_SANITIZER build); cbn; eexists _, _, _;
      repeat split; reflexivity.
  - destruct (LEAK_SANITIZER build); cbn; eexists _, _, _;
      repeat split; reflexivity.
Qed.

End Driver.

(** X11.  The driver called on one environment after another, the exit code
    carried from call to call, always returns.  It executes the
    environments in order up to the first whose run ends in a failure, and
    none after it: the environments loaded are an initial part of the list.
    Started on a failure it loads nothing, writes nothing and returns that
    failure; and it can only end on no-failure if it started on no-failure
    and loaded every environment of the list. *)
Theorem driver_stops_at_first_failure :
  forall (W : Type) (node : Collaborators W) (build : BuildConfig)
         (envs : list Environment) (exit_code : ExitCode) (w : W),
    let o := drive node build exit_code envs w in
    exists c k,
      value_of o = Some c /\
      loaded_environments (log_of o) = firstn k envs /\
      (exit_code <> kNoFailure ->
       c = exit_code /\ k = 0 /\
       absent is_execution (log_of o) /\ exit_code_history (log_of o) = []) /\
      (c = kNoFailure ->
       exit_code = kNoFailure /\ loaded_environments (log_of o) = envs).
Proof.
  intros W node build envs.
  induction envs as [|env envs IH]; intros exit_code w.
  - exists exit_code, 0. cbn. repeat split; auto.
  - intros o.
    destruct (Run_env_returns node build exit_code env w)
      as (c1 & l1 & w1 & Hrun & Hone).
    destruct (IH c1 w1) as (c & k & Hv & Hload & Hfail & Hok).
    assert (Ho : o = match drive node build c1 envs w1 with
                     | Returned b l2 w2 => Returned b (l1 ++ l2) w2
                     | Aborted l2 w2 => Aborted (l1 ++ l2) w2
                     end)
      by (unfold o; cbn [drive]; unfold bind; rewrite Hrun; reflexivity).
    rewrite Ho. clear Ho o.
    destruct (drive node build c1 envs w1) as [c' l2 w2 | l2 w2];
      [|discriminate Hv].
    cbn in Hv, Hload, Hfail, Hok |- *. injection Hv as ->.
    destruct (is_kNoFailure exit_code) eqn:Hec.
    + exists c, (S k). rewrite loaded_environments_app, Hone, Hload.
      split; [reflexivity|]. split; [reflexivity|]. split.
      * intros Hne. destruct exit_code; [contradiction | discriminate..].
      * intros ->. destruct exit_code; try discriminate Hec.
        split; [reflexivity|].
        destruct (Hok eq_refl) as [_ Hall]. cbn. f_equal.
        rewrite <- Hload. exact Hall.
    + destruct Hone as (-> & Hl1 & Hx1 & Hh1).
      assert (Hne : exit_code <> kNoFailure)
        by (intros ->; discriminate Hec).
      destruct (Hfail Hne) as (-> & -> & Hx2 & Hh2).
      exists exit_code, 0.
      split; [reflexivity|]. split.
      { rewrite loaded_environments_app, Hl1, Hload. reflexivity. }
      split.
      * intros _. split; [reflexivity|]. split; [reflexivity|]. split.
        -- apply absent_app; assumption.
        -- clear - Hh1 Hh2.
           induction l1 as [|e l1 IHl]; [exact Hh2|].
           destruct e; cbn in Hh1 |- *; try (apply IHl; exact Hh1).
           discriminate Hh1.
      * intros ->. contradiction.
Qed.

Lemma driver_stops_at_first_failure_witness :
  let env := {| env_addr := 300; context := ContextAt 200 |} in
  (let o := drive (scripted happy) plain_build kGenericUserError
              [env; env] 0 in
   exists c k,
     value_of o = Some c /\
     loaded_environments (log_of o) = firstn k [env; env] /\
     c = kGenericUserError /\ k = 0 /\
     absent is_execution (log_of o) /\ exit_code_history (log_of o) = [])
  /\
  (let o := drive (scripted happy) plain_build kNoFailure [env; env] 0 in
   value_of o = Some kNoFailure /\
   loaded_environments (log_of o) = [env; env]).
Proof.
  intros env. split.
  - intros o.
    destruct (driver_stops_at_first_failure (scripted happy) plain_build
                [env; env] kGenericUserError 0)
      as (c & k & Hv & Hl & Hfail & _).
    exists c, k. split; [exact Hv|]. split; [exact Hl|].
    apply Hfail. discriminate.
  - intros o.
    destruct (driver_stops_at_first_failure (scripted happy) plain_build
                [env; env] kNoFailure 0)
      as (c & k & Hv & _ & _ & Hok).
    cbn in Hv. injection Hv as <-.
    split; [reflexivity|]. exact (proj2 (Hok eq_refl)).
Defined.

(** ** The environment handed to the caller *)

(** X12.  When [CreateMainEnvironment] returns, on whatever object and
    whatever exit code it was entered with: the exit code is no-failure;
    the environment it returns is the one environment it created, or null
    if [CreateEnvironment] gave none; and it has neither freed nor loaded
    nor run anything, so the environment is the caller's to free.  When it
    aborts, no environment exists. *)
Theorem CreateMainEnvironment_hands_over :
  forall (W : Type) (node : Collaborators W) (build : BuildConfig)
         (this : NodeMainInstance) (exit_code : ExitCode) (w : W),
    let o := CreateMainEnvironment node build this exit_code w in
    freed_environments (log_of o) = [] /\
    absent is_execution (log_of o) /\
    match value_of o with
    | Some (env, c) =>
        c = kNoFailure /\
        created_environments (log_of o) =
          match env with Some e => [e] | None => [] end
    | None => created_environments (log_of o) = []
    end.
Proof.
  intros W node build this exit_code w o. subst o.
  open_object this; destruct build as [[|] [|]];
    open_methods; cbn; repeat answer; repeat split.
Qed.
